(** * TrueCite: the retrieval-and-audit pipeline, embedded and verified

    Shallow embedding of [src/backend/auditor.py], [src/backend/ingestion.py],
    [src/backend/extractor.py] and [src/backend/main.py].

    Conventions of the embedding:
    - a Python [str] is a [string]; one [ascii] stands for one character,
      with a code point from 0 to 255;
    - a call that may raise returns a [result]: [Ok v] or [Raise e], where
      [e : Exception] is an instance of Python's [Exception] class, the
      class every [except Exception] clause of the sources catches;
    - the services the sources reach through third-party libraries (the
      PDF loader, the language model, the embedding store, the text
      splitter, the JSON decoder) are fields of an environment record, so
      each theorem holds for every behaviour of those services. *)

From Stdlib Require Import Ascii QArith.
From stdpp Require Import base ssreflect strings list gmap.

Local Open Scope nat_scope.

(** ** Exceptions and fallible computations *)

(** An instance of [Exception]: its class name and the text [str(e)] gives. *)
Record Exception := Exc { exc_class : string; exc_msg : string }.

Inductive result (A : Type) : Type :=
| Ok (a : A)
| Raise (e : Exception).
Arguments Ok {A} a.
Arguments Raise {A} e.

(** Sequencing: the first exception raised ends the computation. *)
#[global] Instance result_ret : MRet result := @Ok.
#[global] Instance result_bind : MBind result := λ A B k m,
  match m with
  | Ok a => k a
  | Raise e => Raise e
  end.

(** [try: body except Exception as e: handler]. *)
Definition try_except {A} (body : result A) (handler : Exception → A) : A :=
  match body with
  | Ok a => a
  | Raise e => handler e
  end.

(** ** Python string operations *)

Module PyStr.

(** [len(s)] *)
Fixpoint len (s : string) : nat :=
  match s with
  | EmptyString => 0
  | String _ s' => S (len s')
  end.

(** [s[:n]] *)
Fixpoint take (n : nat) (s : string) : string :=
  match n, s with
  | S n', String c s' => String c (take n' s')
  | _, _ => EmptyString
  end.

(** [s[n:]] *)
Fixpoint drop (n : nat) (s : string) : string :=
  match n, s with
  | S n', String _ s' => drop n' s'
  | _, _ => s
  end.

(** [s.startswith(p)] *)
Fixpoint startswith (p s : string) : bool :=
  match p, s with
  | EmptyString, _ => true
  | String a p', String b s' => if decide (a = b) then startswith p' s' else false
  | String _ _, EmptyString => false
  end.

(** [s.endswith(p)] *)
Definition endswith (p s : string) : bool :=
  if decide (len p ≤ len s) then bool_decide (drop (len s - len p) s = p) else false.

(** [s.find(sub)], with [None] for Python's [-1]. *)
Fixpoint find (sub s : string) : option nat :=
  if startswith sub s then Some 0
  else match s with
       | EmptyString => None
       | String _ s' => S <$> find sub s'
       end.

(** [sub in s] *)
Fixpoint contains (sub s : string) : bool :=
  startswith sub s ||
  match s with
  | EmptyString => false
  | String _ s' => contains sub s'
  end.

(** [s.split(sep)] for a non-empty [sep]: the text is cut at the leftmost
    occurrence of [sep], then at the leftmost occurrence after it, and so
    on.  [skip] counts the characters of a matched separator still to be
    passed over. *)
Fixpoint split_go (sep : string) (skip : nat) (s : string) : list string :=
  match s with
  | EmptyString => [EmptyString]
  | String c s' =>
      match skip with
      | S k => split_go sep k s'
      | 0 =>
          if startswith sep s
          then EmptyString :: split_go sep (len sep - 1) s'
          else match split_go sep 0 s' with
               | piece :: pieces => String c piece :: pieces
               | [] => [String c EmptyString]
               end
      end
  end.

Definition split (sep s : string) : list string := split_go sep 0 s.

(** [sep.join(pieces)] *)
Fixpoint join (sep : string) (pieces : list string) : string :=
  match pieces with
  | [] => EmptyString
  | [p] => p
  | p :: rest => p +:+ sep +:+ join sep rest
  end.

(** [s.replace(old, new)] for a non-empty [old]. *)
Definition replace (old new s : string) : string := join new (split old s).

(** [c.isspace()] for the code points 0 to 255: tab, line feed, vertical
    tab, form feed, carriage return, the four separators 28 to 31, space,
    next line (133) and no-break space (160). *)
Definition isspace (c : ascii) : bool :=
  let n := Ascii.nat_of_ascii c in
  bool_decide (9 ≤ n ≤ 13) || bool_decide (28 ≤ n ≤ 32)
  || bool_decide (n = 133) || bool_decide (n = 160).

Fixpoint lstrip (s : string) : string :=
  match s with
  | EmptyString => EmptyString
  | String c s' => if isspace c then lstrip s' else s
  end.

Fixpoint rstrip (s : string) : string :=
  match s with
  | EmptyString => EmptyString
  | String c s' =>
      match rstrip s' with
      | EmptyString => if isspace c then EmptyString else String c EmptyString
      | r => String c r
      end
  end.

(** [s.strip()] *)
Definition strip (s : string) : string := rstrip (lstrip s).

(** [c.lower()] for the code points 0 to 255: the letters A to Z and the
    accented capitals 192 to 222, the multiplication sign 215 apart. *)
Definition lower_char (c : ascii) : ascii :=
  let n := Ascii.nat_of_ascii c in
  if bool_decide (65 ≤ n ≤ 90) || (bool_decide (192 ≤ n ≤ 222) && negb (bool_decide (n = 215)))
  then Ascii.ascii_of_nat (n + 32)
  else c.

Fixpoint lower (s : string) : string :=
  match s with
  | EmptyString => EmptyString
  | String c s' => String (lower_char c) (lower s')
  end.

(** [l[i]], which raises [IndexError] out of range. *)
Definition index {A} (l : list A) (i : nat) : result A :=
  match l !! i with
  | Some x => Ok x
  | None => Raise (Exc "IndexError" "list index out of range")
  end.

(** The text before the leftmost occurrence of [sep], the whole text when
    there is none. *)
Definition before (sep s : string) : string :=
  match find sep s with
  | Some i => take i s
  | None => s
  end.

(** The text after the leftmost occurrence of [sep]. *)
Definition after (sep s : string) : string :=
  match find sep s with
  | Some i => drop (i + len sep) s
  | None => EmptyString
  end.

End PyStr.

(** The line feed character, Python's ["\n"]. *)
Definition NL : string := String (Ascii.ascii_of_nat 10) EmptyString.

(** [d[k]] on a dict, which raises [KeyError] for a missing key. *)
Definition getitem (d : gmap string string) (k : string) : result string :=
  match d !! k with
  | Some v => Ok v
  | None => Raise (Exc "KeyError" k)
  end.

(** langchain's [Document]: the text of a chunk and its metadata dict.  The
    metadata entries this code writes and reads are strings. *)
Record Document := mkDocument {
  page_content : string;
  metadata : gmap string string
}.

(** ** The audit engine ([src/backend/auditor.py]) *)

Module Auditor.

Record AuditResult := mkAuditResult {
  question : string;
  thinking : string;
  answer : string;
  status : string;
  sources : list string
}.

(** What [retriever.ainvoke(question)] does: it returns the retrieved
    chunks or raises. *)
Definition Retriever : Type := string → result (list Document).

(** The services of the engine: the prompt template filled with
    [context] and [question], the model call followed by
    [StrOutputParser], and the text pydantic puts in the
    [ValidationError] it raises for a rejected [sources] value. *)
Record Env := mkEnv {
  prompt_format : string → string → result string;
  llm_invoke : string → result string;
  validation_message : list (option string) → string
}.

Definition format_doc (doc : Document) : string :=
  let source := default "Unknown Source" (metadata doc !! "source_file") in
  let content := PyStr.replace NL " " (page_content doc) in
  "[Source: " +:+ source +:+ "]" +:+ NL +:+ content +:+ NL.

Definition format_docs (docs : list Document) : string :=
  PyStr.join (NL +:+ "---" +:+ NL) (format_doc <$> docs).

Definition default_sections : gmap string string :=
  <["thinking" := "No thinking provided."]>
  (<["status" := "Unknown"]>
  (<["rationale" := ""]>
  (<["citation" := ""]> ∅))).

Definition parse_thinking (text : string) (sections : gmap string string)
  : result (gmap string string) :=
  if PyStr.contains "**THINKING**:" text then
    a ← PyStr.index (PyStr.split "**THINKING**:" text) 1;
    b ← PyStr.index (PyStr.split "**STATUS**:" a) 0;
    mret (<["thinking" := PyStr.strip b]> sections)
  else mret sections.

Definition parse_status (text : string) (sections : gmap string string)
  : result (gmap string string) :=
  if PyStr.contains "**STATUS**:" text then
    a ← PyStr.index (PyStr.split "**STATUS**:" text) 1;
    b ← PyStr.index (PyStr.split "**RATIONALE**:" a) 0;
    mret (<["status" := PyStr.strip b]> sections)
  else mret sections.

Definition parse_rationale (text : string) (sections : gmap string string)
  : result (gmap string string) :=
  if PyStr.contains "**RATIONALE**:" text then
    a ← PyStr.index (PyStr.split "**RATIONALE**:" text) 1;
    b ← PyStr.index (PyStr.split "**EVIDENCE CITATION**:" a) 0;
    mret (<["rationale" := PyStr.strip b]> sections)
  else mret sections.

Definition parse_citation (text : string) (sections : gmap string string)
  : result (gmap string string) :=
  if PyStr.contains "**EVIDENCE CITATION**:" text then
    a ← PyStr.index (PyStr.split "**EVIDENCE CITATION**:" text) 1;
    mret (<["citation" := PyStr.strip a]> sections)
  else mret sections.

(** The statements of a [try] block run in order on the dict they
    mutate; an exception stops them and leaves the dict as it is then. *)
Fixpoint run_statements (stmts : list (gmap string string → result (gmap string string)))
    (sections : gmap string string) : gmap string string * option Exception :=
  match stmts with
  | [] => (sections, None)
  | stmt :: rest =>
      match stmt sections with
      | Ok sections' => run_statements rest sections'
      | Raise e => (sections, Some e)
      end
  end.

Definition parse_run (text : string) : gmap string string * option Exception :=
  run_statements
    [parse_thinking text; parse_status text; parse_rationale text; parse_citation text]
    default_sections.

Definition _parse_structured_response (text : string) : gmap string string :=
  (parse_run text).1.

(** [list(set([...]))]: the distinct values, in the order the set yields
    them.  Python leaves that order unspecified; the theorems below use
    only that the list has no duplicates and the same members. *)
Definition unique_sources (docs : list Document) : list (option string) :=
  elements (list_to_set ((λ d, metadata d !! "source_file") <$> docs) : gset (option string)).

(** pydantic's check of [sources: List[str]]: every item must be a
    string; [None] is rejected. *)
Definition all_strings (l : list (option string)) : option (list string) :=
  mapM id l.

Definition validate_sources (env : Env) (l : list (option string)) : result (list string) :=
  match all_strings l with
  | Some strs => Ok strs
  | None => Raise (Exc "ValidationError" (validation_message env l))
  end.

(** The body of the [try] block of [run_audit]. *)
Definition run_audit_try (env : Env) (question : string) (retriever : Retriever)
  : result AuditResult :=
  docs ← retriever question;
  let context_text := format_docs docs in
  prompt ← prompt_format env context_text question;
  response_text ← llm_invoke env prompt;
  let parsed := _parse_structured_response response_text in
  let unique := unique_sources docs in
  thinking ← getitem parsed "thinking";
  status ← getitem parsed "status";
  rationale ← getitem parsed "rationale";
  citation ← getitem parsed "citation";
  sources ← validate_sources env unique;
  mret (mkAuditResult question thinking (rationale +:+ NL +:+ NL +:+ citation) status sources).

(** The result built by the [except Exception as e] clause. *)
Definition error_result (question : string) (e : Exception) : AuditResult :=
  mkAuditResult question "Error during reasoning."
    ("Error running audit: " +:+ exc_msg e) "Error" [].

Definition run_audit (env : Env) (question : string) (retriever : Retriever) : AuditResult :=
  try_except (run_audit_try env question retriever) (error_result question).

(** Where the [try] block of [run_audit] can raise: in the retriever, in
    filling the prompt, in the model call, and in the validation of the
    [AuditResult] it builds. *)
Inductive raised (env : Env) (question : string) (retriever : Retriever)
  : Exception → Prop :=
| raised_retrieval e :
    retriever question = Raise e →
    raised env question retriever e
| raised_prompt docs e :
    retriever question = Ok docs →
    prompt_format env (format_docs docs) question = Raise e →
    raised env question retriever e
| raised_llm docs prompt e :
    retriever question = Ok docs →
    prompt_format env (format_docs docs) question = Ok prompt →
    llm_invoke env prompt = Raise e →
    raised env question retriever e
| raised_validation docs prompt response :
    retriever question = Ok docs →
    prompt_format env (format_docs docs) question = Ok prompt →
    llm_invoke env prompt = Ok response →
    all_strings (unique_sources docs) = None →
    raised env question retriever
      (Exc "ValidationError" (validation_message env (unique_sources docs))).

End Auditor.

(** The section values as the specification words them, to compare with
    the parser of the source: the text that follows the first occurrence
    of [marker], up to the next occurrence of [marker] and to the first
    occurrence of the marker of the next section, without the white space
    around it; [dflt] when [marker] does not occur. *)
Module ParseSpec.

Definition text_between (marker : string) (next : option string) (text : string)
  : string :=
  let tail := PyStr.before marker (PyStr.after marker text) in
  match next with
  | Some next_marker => PyStr.before next_marker tail
  | None => tail
  end.

Definition section_value (marker : string) (next : option string) (dflt text : string)
  : string :=
  match PyStr.find marker text with
  | Some _ => PyStr.strip (text_between marker next text)
  | None => dflt
  end.

End ParseSpec.

(** A value decoded by [json.loads]: [None], a [bool], an [int], a
    [float] (kept as its literal), a [str], a [list] or a [dict] (its
    entries, each key once). *)
#[warnings="-register-all"]
Inductive Json :=
| JNull
| JBool (b : bool)
| JInteger (n : Z)
| JFloat (literal : string)
| JString (s : string)
| JArray (items : list Json)
| JObject (entries : list (string * Json)).

(** [type(v).__name__] *)
Definition type_name (v : Json) : string :=
  match v with
  | JNull => "NoneType"
  | JBool _ => "bool"
  | JInteger _ => "int"
  | JFloat _ => "float"
  | JString _ => "str"
  | JArray _ => "list"
  | JObject _ => "dict"
  end.

(** The value stored under [key] in the entries of a dict. *)
Fixpoint dict_get (key : string) (entries : list (string * Json)) : option Json :=
  match entries with
  | [] => None
  | (k, v) :: rest => if decide (k = key) then Some v else dict_get key rest
  end.

(** [v.get(key, dflt)]: only a dict has the method; on any other value
    the attribute access raises [AttributeError]. *)
Definition py_get (v : Json) (key : string) (dflt : Json) : result Json :=
  match v with
  | JObject entries => Ok (default dflt (dict_get key entries))
  | _ => Raise (Exc "AttributeError"
                  ("'" +:+ type_name v +:+ "' object has no attribute 'get'"))
  end.

(** ** Ingestion and retriever construction ([src/backend/ingestion.py]) *)

Module Ingestion.

(** [settings] of [src/backend/config.py]. *)
Definition CHUNK_SIZE : nat := 1000.
Definition CHUNK_OVERLAP : nat := 200.
Definition RETRIEVAL_K : nat := 5.

(** The content of the vector store: the chunks added so far. *)
Definition Store : Type := list Document.

(** The ingestor object: its vector store and the number of calls it has
    made to the tagging model.  The model is a remote service: what it
    answers to a prompt may differ from one call to the next. *)
Record Ingestor := mkIngestor {
  vectorstore : Store;
  tagger_calls : nat
}.

(** A chunk after the loop of [ingest_pdf]: its text and its metadata
    dict, whose title and category are whatever the tagger decoded. *)
Record TaggedChunk := mkTaggedChunk {
  tagged_content : string;
  tagged_metadata : gmap string Json
}.

(** The services of the ingestor.
    - [registrar_format t]: [self.registrar_template.format(text=t)];
    - [tagger_llm n p]: [self.tagger_llm.invoke(p).content] at the call
      number [n];
    - [json_loads]: [json.loads];
    - [py_str v]: [str(v)] for a decoded value that is not a [str];
    - [pdf_load path]: [PyPDFLoader(path).load()];
    - [split_documents]: the [RecursiveCharacterTextSplitter] built with
      [CHUNK_SIZE] and [CHUNK_OVERLAP];
    - [vs_add store chunks]: [self.vectorstore.add_documents(chunks)],
      giving the store afterwards and whether the call raised;
    - [zip_namelist path]: opening the archive and reading its name list;
    - [zip_extractall path dir]: [z.extractall(dir)];
    - [tmp_dir]: the name of the temporary directory. *)
Record Env := mkEnv {
  registrar_format : string → result string;
  tagger_llm : nat → string → result string;
  json_loads : string → result Json;
  py_str : Json → string;
  pdf_load : string → result (list Document);
  split_documents : nat → nat → list Document → result (list Document);
  vs_add : Store → list TaggedChunk → Store * result unit;
  zip_namelist : string → result (list string);
  zip_extractall : string → string → result unit;
  tmp_dir : string
}.

Definition fallback_metadata : Json :=
  JObject [("formal_title", JString "Unknown Policy"); ("category", JString "General")].

Definition clean_json (content : string) : string :=
  PyStr.replace "```" "" (PyStr.replace "```json" "" (PyStr.strip content)).

(** The [try] block of [_get_actual_metadata] at the call number [calls],
    with the list of prompts handed to the model on the way. *)
Definition tagger_try (env : Env) (calls : nat) (first_page_text : string)
  : list string * result Json :=
  match registrar_format env (PyStr.take 3000 first_page_text) with
  | Raise e => ([], Raise e)
  | Ok prompt =>
      ([prompt],
       content ← tagger_llm env calls prompt;
       json_loads env (clean_json content))
  end.

Definition tagger_prompts (env : Env) (calls : nat) (first_page_text : string)
  : list string :=
  (tagger_try env calls first_page_text).1.

Definition _get_actual_metadata (env : Env) (calls : nat) (first_page_text : string)
  : Json :=
  try_except (tagger_try env calls first_page_text).2 (λ _, fallback_metadata).

(** [f"{v}"]: a [str] as it is, any other value through [str]. *)
Definition format_value (env : Env) (v : Json) : string :=
  match v with
  | JString s => s
  | _ => py_str env v
  end.

(** The body of the loop over the chunks. *)
Definition stamp_value (env : Env) (actual_title category : Json)
    (original_name : string) (chunk : Document) : TaggedChunk :=
  mkTaggedChunk
    ("[[POLICY: " +:+ format_value env actual_title +:+ "]]" +:+ NL +:+
     "[[CATEGORY: " +:+ format_value env category +:+ "]]" +:+ NL +:+
     page_content chunk)
    (<["source_file" := JString original_name]>
     (<["category" := category]>
     (<["doc_title" := actual_title]> (JString <$> metadata chunk)))).

(** That body when the title and the category are strings, on documents
    with string metadata. *)
Definition stamp (actual_title category original_name : string) (chunk : Document)
  : Document :=
  mkDocument
    ("[[POLICY: " +:+ actual_title +:+ "]]" +:+ NL +:+
     "[[CATEGORY: " +:+ category +:+ "]]" +:+ NL +:+
     page_content chunk)
    (<["source_file" := original_name]>
     (<["category" := category]>
     (<["doc_title" := actual_title]> (metadata chunk)))).

(** The [try] block of [ingest_pdf] on the ingestor it mutates. *)
Definition ingest_pdf_try (env : Env) (ingestor : Ingestor)
    (file_path original_name : string) : Ingestor * result nat :=
  match pdf_load env file_path with
  | Raise e => (ingestor, Raise e)
  | Ok [] => (ingestor, Ok 0)
  | Ok ((first_page :: other_pages) as pages) =>
      let calls := tagger_calls ingestor in
      let doc_info := _get_actual_metadata env calls (page_content first_page) in
      let calls := calls + length (tagger_prompts env calls (page_content first_page)) in
      let store := vectorstore ingestor in
      match py_get doc_info "formal_title" (JString original_name) with
      | Raise e => (mkIngestor store calls, Raise e)
      | Ok actual_title =>
          match py_get doc_info "category" (JString "General") with
          | Raise e => (mkIngestor store calls, Raise e)
          | Ok category =>
              match split_documents env CHUNK_SIZE CHUNK_OVERLAP pages with
              | Raise e => (mkIngestor store calls, Raise e)
              | Ok chunks =>
                  let chunks :=
                    stamp_value env actual_title category original_name <$> chunks in
                  match vs_add env store chunks with
                  | (store', Raise e) => (mkIngestor store' calls, Raise e)
                  | (store', Ok _) => (mkIngestor store' calls, Ok (length chunks))
                  end
              end
          end
      end
  end.

Definition ingest_pdf (env : Env) (ingestor : Ingestor) (file_path original_name : string)
  : Ingestor * nat :=
  let '(ingestor', r) := ingest_pdf_try env ingestor file_path original_name in
  (ingestor', try_except r (λ _, 0)).

Definition is_pdf_entry (f : string) : bool :=
  PyStr.endswith ".pdf" (PyStr.lower f) && negb (PyStr.startswith "__MACOSX" f).

(** [os.path.join(dir, name)] on POSIX paths. *)
Definition path_join (dir name : string) : string :=
  if PyStr.startswith "/" name then name
  else if PyStr.endswith "/" dir then dir +:+ name
  else if decide (dir = EmptyString) then name
  else dir +:+ "/" +:+ name.

(** The [for f_name in pdf_files] loop. *)
Fixpoint ingest_loop (env : Env) (ingestor : Ingestor) (total_chunks : nat)
    (pdf_files : list string) : Ingestor * nat :=
  match pdf_files with
  | [] => (ingestor, total_chunks)
  | f_name :: rest =>
      let full_path := path_join (tmp_dir env) f_name in
      let '(ingestor', count) := ingest_pdf env ingestor full_path f_name in
      ingest_loop env ingestor' (total_chunks + count) rest
  end.

(** The count each call of [ingest_pdf] in that loop returns, in order. *)
Fixpoint loop_counts (env : Env) (ingestor : Ingestor) (pdf_files : list string)
  : list nat :=
  match pdf_files with
  | [] => []
  | f_name :: rest =>
      let '(ingestor', count) :=
        ingest_pdf env ingestor (path_join (tmp_dir env) f_name) f_name in
      count :: loop_counts env ingestor' rest
  end.

Definition ingest_zip (env : Env) (ingestor : Ingestor) (zip_path : string)
  : Ingestor * result nat :=
  match zip_namelist env zip_path with
  | Raise e => (ingestor, Raise e)
  | Ok names =>
      let pdf_files := filter (λ f, is_pdf_entry f = true) names in
      match zip_extractall env zip_path (tmp_dir env) with
      | Raise e => (ingestor, Raise e)
      | Ok _ =>
          let '(ingestor', total_chunks) := ingest_loop env ingestor 0 pdf_files in
          (ingestor', Ok total_chunks)
      end
  end.

(** The retriever objects [get_retriever] builds. *)
#[warnings="-register-all"]
Inductive Retriever :=
| VectorStoreRetriever (k : nat)
| BM25Retriever (docs : list Document) (k : nat)
| EnsembleRetriever (retrievers : list Retriever) (weights : list Q).

(** [self.vectorstore.get()]: the parallel lists ['documents'] and
    ['metadatas']. *)
Definition vs_get (store : Store) : list string * list (gmap string string) :=
  (page_content <$> store, metadata <$> store).

Definition get_retriever (store : Store) : Retriever :=
  let vector_retriever := VectorStoreRetriever RETRIEVAL_K in
  let all_docs := vs_get store in
  match all_docs.1 with
  | [] => vector_retriever
  | _ :: _ =>
      let docs := (λ p, mkDocument p.1 p.2) <$> zip all_docs.1 all_docs.2 in
      let bm25_retriever := BM25Retriever docs RETRIEVAL_K in
      EnsembleRetriever [bm25_retriever; vector_retriever] [3 # 10; 7 # 10]%Q
  end.

(** The number of results a base retriever is limited to. *)
Definition result_limit (r : Retriever) : option nat :=
  match r with
  | VectorStoreRetriever k => Some k
  | BM25Retriever _ k => Some k
  | EnsembleRetriever _ _ => None
  end.

End Ingestion.

(** ** The question extractor ([src/backend/extractor.py]) *)

Module Extractor.

(** The services of the extractor: the PDF loader, and the chain
    [prompt | llm | parser] run on [context] and [format_instructions],
    whose result is the decoded payload at the declared schema
    [QuestionList]: a dict of lists of strings. *)
Record Env := mkEnv {
  pdf_load : string → result (list Document);
  format_instructions : string;
  chain_invoke : string → string → result (gmap string (list string))
}.

Definition extract_try (env : Env) (file_path : string) : result (list string) :=
  pages ← pdf_load env file_path;
  let full_text := PyStr.join NL (page_content <$> pages) in
  parsed ← chain_invoke env full_text (format_instructions env);
  let questions := default [] (parsed !! "questions") in
  mret questions.

Definition extract_from_file (env : Env) (file_path : string) : list string :=
  try_except (extract_try env file_path) (λ _, []).

End Extractor.

(** ** The bulk-audit endpoint ([src/backend/main.py]) *)

Module Main.

(** The values the streamed records hold. *)
Inductive JVal :=
| JStr (s : string)
| JInt (n : nat)
| JStrList (l : list string).

(** One unit the generator yields: [json.dumps(record) + "\n"] for a
    dict, written as the list of its entries in order, or a plain text. *)
Inductive Emitted :=
| JsonLine (record : list (string * JVal))
| Text (s : string).

Inductive Response :=
| HTTPException (status_code : nat) (detail : string)
| StreamingResponse (body : list Emitted) (media_type : string).

(** [record.get(key)] *)
Fixpoint record_get (key : string) (record : list (string * JVal)) : option JVal :=
  match record with
  | [] => None
  | (k, v) :: rest => if decide (k = key) then Some v else record_get key rest
  end.

(** [record["type"]] of a yielded unit, when it is a record with one. *)
Definition tag_of (u : Emitted) : option JVal :=
  match u with
  | JsonLine record => record_get "type" record
  | Text _ => None
  end.

Definition result_record (res : Auditor.AuditResult) : list (string * JVal) :=
  [("type", JStr "result");
   ("question", JStr (Auditor.question res));
   ("thinking", JStr (Auditor.thinking res));
   ("answer", JStr (Auditor.answer res));
   ("status", JStr (Auditor.status res));
   ("sources", JStrList (Auditor.sources res))].

Definition failure_record (q_text : string) (e : Exception) : list (string * JVal) :=
  [("type", JStr "result");
   ("question", JStr q_text);
   ("thinking", JStr "Error during processing.");
   ("answer", JStr ("Internal Server Error: " +:+ exc_msg e));
   ("status", JStr "Error");
   ("sources", JStrList [])].

(** What one turn of the loop in [audit_generator] yields, for an audit
    call [audit] that returns a result or raises. *)
Definition audit_one (audit : string → result Auditor.AuditResult) (q_text : string)
  : list Emitted :=
  [Text " ";
   JsonLine (try_except (res ← audit q_text; mret (result_record res))
                        (failure_record q_text))].

Definition audit_generator (audit : string → result Auditor.AuditResult)
    (questions : list string) : list Emitted :=
  JsonLine [("type", JStr "meta"); ("total", JInt (length questions))]
  :: (questions ≫= audit_one audit).

(** The records among the yielded units, in order. *)
Definition records (body : list Emitted) : list (list (string * JVal)) :=
  omap (λ u, match u with JsonLine record => Some record | Text _ => None end) body.

(** A line of the stream as a reader of [application/x-ndjson] gets it:
    a record with the text that stands before it on its line, or a line
    without record.  [json.dumps] emits no line feed, so a record ends
    its line with the line feed yielded behind it. *)
Inductive Line :=
| RecordLine (leading : string) (record : list (string * JVal))
| PlainLine (text : string).

(** The lines of the yielded units; [pending] is the text of the line not
    yet ended. *)
Fixpoint read_lines (pending : string) (units : list Emitted) : list Line :=
  match units with
  | [] => if decide (pending = EmptyString) then [] else [PlainLine pending]
  | JsonLine record :: rest => RecordLine pending record :: read_lines EmptyString rest
  | Text s :: rest =>
      let pieces := PyStr.split NL (pending +:+ s) in
      (PlainLine <$> take (length pieces - 1) pieces)
      ++ read_lines (default EmptyString (last pieces)) rest
  end.


(** The endpoint, once the upload is saved at [path].  The retriever
    objects built by [get_retriever] are truthy, so the first guard of
    the source never fires. *)
Definition run_bulk_audit_stream (aenv : Auditor.Env) (xenv : Extractor.Env)
    (retriever : Auditor.Retriever) (path : string) : Response :=
  let questions := Extractor.extract_from_file xenv path in
  match questions with
  | [] => HTTPException 400 "Could not extract any questions."
  | _ :: _ =>
      StreamingResponse
        (audit_generator (λ q, Ok (Auditor.run_audit aenv q retriever)) questions)
        "application/x-ndjson"
  end.

End Main.

(** ** The chunker of the specification *)

Module Chunker.

(** Modelled from the spec: the splitter itself, the class
    [RecursiveCharacterTextSplitter], is not among the sources; only its
    construction with [chunk_size] and [chunk_overlap] is.  The spec's
    words: the text is split "into overlapping fixed-length windows
    (chunk_size chars, overlap chars shared between consecutive
    windows)".  A window holds [chunk_size] characters and the next one
    starts [chunk_size - overlap] characters later; the window that
    reaches the end of the text is the last. *)
Fixpoint chunk_go (fuel chunk_size overlap : nat) (text : string) : list string :=
  match fuel with
  | 0 => []
  | S fuel' =>
      if decide (PyStr.len text ≤ chunk_size) then [text]
      else PyStr.take chunk_size text
           :: chunk_go fuel' chunk_size overlap (PyStr.drop (chunk_size - overlap) text)
  end.

Definition chunk (chunk_size overlap : nat) (text : string) : list string :=
  match text with
  | EmptyString => []
  | _ => chunk_go (PyStr.len text) chunk_size overlap text
  end.

(** Modelled from the spec: "re-joining all produced chunks'
    non-overlapping text (dropping the overlap regions)": the first chunk
    whole, then every later chunk without its first [overlap]
    characters. *)
Definition rejoin (overlap : nat) (chunks : list string) : string :=
  match chunks with
  | [] => EmptyString
  | first :: rest => first +:+ PyStr.join EmptyString (PyStr.drop overlap <$> rest)
  end.

End Chunker.

(** ** A small deployment used in the examples *)

Module Scenario.

(** The store of the examples keeps the text of a chunk and the string
    entries of its metadata. *)
Definition store_chunk (chunk : Ingestion.TaggedChunk) : Document :=
  mkDocument (Ingestion.tagged_content chunk)
    (omap (λ v, match v with JString s => Some s | _ => None end)
       (Ingestion.tagged_metadata chunk)).

(** An archive with two readable PDFs, one unreadable PDF, a text file
    and a resource-fork entry; a tagging model that is out of quota; a
    splitter that keeps each page as one chunk; a store that accepts
    every chunk. *)
Definition ingest_env : Ingestion.Env :=
  Ingestion.mkEnv
    (λ text, Ok ("Identify this doc. Text: " +:+ text))
    (λ _ _, Raise (Exc "ResourceExhausted" "quota exceeded"))
    (λ _, Raise (Exc "JSONDecodeError" "Expecting value"))
    (λ v, type_name v)
    (λ path, if PyStr.endswith "bad.pdf" path
             then Raise (Exc "PdfReadError" "EOF marker not found")
             else Ok [mkDocument "Employees may work remotely." ∅])
    (λ _ _ pages, Ok pages)
    (λ store chunks, (store ++ (store_chunk <$> chunks), Ok ()))
    (λ _, Ok ["a.pdf"; "bad.pdf"; "notes.txt"; "__MACOSX/a.pdf"; "B.PDF"])
    (λ _ _, Ok ())
    "/tmp/tmpq1".

(** The same deployment with a tagging model that answers. *)
Definition tagging_env : Ingestion.Env :=
  Ingestion.mkEnv
    (λ text, Ok ("Identify this doc. Text: " +:+ text))
    (λ _ _, Ok "```json{}```")
    (λ clean, if decide (clean = "{}")
              then Ok (JObject [("formal_title", JString "Remote Work Policy")])
              else Raise (Exc "JSONDecodeError" "Expecting value"))
    (Ingestion.py_str ingest_env)
    (Ingestion.pdf_load ingest_env)
    (Ingestion.split_documents ingest_env)
    (Ingestion.vs_add ingest_env)
    (Ingestion.zip_namelist ingest_env)
    (Ingestion.zip_extractall ingest_env)
    (Ingestion.tmp_dir ingest_env).

(** An audit-requirements file that cannot be read. *)
Definition unreadable_env : Extractor.Env :=
  Extractor.mkEnv (λ _, Raise (Exc "PdfReadError" "EOF marker not found"))
    "Return a JSON object." (λ _ _, Ok ∅).

(** An audit-requirements file with two questions. *)
Definition questions_env : Extractor.Env :=
  Extractor.mkEnv (λ _, Ok [mkDocument "1. MFA? 2. Backups?" ∅])
    "Return a JSON object."
    (λ _ _, Ok (<["questions" := ["Is MFA required?"; "Are backups tested?"]]> ∅)).

(** An audit engine whose model answers with the four sections, and a
    retriever that finds one chunk of [a.pdf]. *)
Definition audit_env : Auditor.Env :=
  Auditor.mkEnv (λ context question, Ok (context +:+ question))
    (λ _, Ok "**THINKING**: t **STATUS**: Compliant **RATIONALE**: r **EVIDENCE CITATION**: c")
    (λ _, "Input should be a valid string").

Definition one_chunk_retriever : Auditor.Retriever :=
  λ _, Ok [mkDocument "Employees may work remotely." {["source_file" := "a.pdf"]}].

(** The same deployment with a tagging model that answers with a JSON
    list: valid JSON, but no object. *)
Definition list_answer_env : Ingestion.Env :=
  Ingestion.mkEnv
    (Ingestion.registrar_format ingest_env)
    (λ _ _, Ok "[]")
    (λ clean, if decide (clean = "[]") then Ok (JArray [])
              else Raise (Exc "JSONDecodeError" "Expecting value"))
    (Ingestion.py_str ingest_env)
    (Ingestion.pdf_load ingest_env)
    (Ingestion.split_documents ingest_env)
    (Ingestion.vs_add ingest_env)
    (Ingestion.zip_namelist ingest_env)
    (Ingestion.zip_extractall ingest_env)
    (Ingestion.tmp_dir ingest_env).

End Scenario.

(** ** More of Python's string and path operations *)

Module PyText.

(** [s.translate({ord(a): b})]: every [a] becomes [b]. *)
Fixpoint translate (a b : ascii) (s : string) : string :=
  match s with
  | EmptyString => EmptyString
  | String c s' => String (if decide (c = a) then b else c) (translate a b s')
  end.

(** [s.rfind(c)] for one character, with [None] for Python's [-1]. *)
Fixpoint rfind_char (c : ascii) (s : string) : option nat :=
  match s with
  | EmptyString => None
  | String a s' =>
      match rfind_char c s' with
      | Some i => Some (S i)
      | None => if decide (a = c) then Some 0 else None
      end
  end.

(** [os.path.basename(p)] on POSIX paths: [p[p.rfind("/") + 1:]]. *)
Definition basename (p : string) : string :=
  match rfind_char "/" p with
  | Some i => PyStr.drop (S i) p
  | None => p
  end.

End PyText.

(** ** The parent-document ingestor ([src/true_cite/backend/ingestion.py]) *)

Module TrueCite.

(** The parent documents added to the retriever so far. *)
Definition Store : Type := list Document.

(** The services of this ingestor.
    - [pdf_load path]: [PyPDFLoader(path).load()];
    - [add_documents store docs]: [self.retriever.add_documents(docs, ids)],
      giving the store afterwards and whether the call raised;
    - [zip_namelist path]: opening the archive and reading its name list;
    - [zip_extract path name dir]: [z.extract(name, path=dir)], the path of
      the extracted file;
    - [tmp_dir]: the name of the temporary directory;
    - [remove_extracted path]: the statement
      [if os.path.exists(path): os.remove(path)]. *)
Record Env := mkEnv {
  pdf_load : string → result (list Document);
  add_documents : Store → list Document → Store * result unit;
  zip_namelist : string → result (list string);
  zip_extract : string → string → string → result string;
  tmp_dir : string;
  remove_extracted : string → result unit
}.

(** [if not source_name: source_name = os.path.basename(file_path)] *)
Definition effective_source_name (file_path : string) (source_name : option string)
  : string :=
  match source_name with
  | Some name => if decide (name = EmptyString) then PyText.basename file_path else name
  | None => PyText.basename file_path
  end.

(** [doc.metadata["source_file"] = source_name] *)
Definition tag_source (source_name : string) (doc : Document) : Document :=
  mkDocument (page_content doc) (<["source_file" := source_name]> (metadata doc)).

(** The [try] block of [ingest_pdf] on the store it mutates. *)
Definition ingest_pdf_try (env : Env) (store : Store) (file_path : string)
    (source_name : option string) : Store * result nat :=
  let source_name := effective_source_name file_path source_name in
  match pdf_load env file_path with
  | Raise e => (store, Raise e)
  | Ok raw_docs =>
      let raw_docs := tag_source source_name <$> raw_docs in
      match add_documents env store raw_docs with
      | (store', Raise e) => (store', Raise e)
      | (store', Ok _) => (store', Ok (length raw_docs))
      end
  end.

Definition ingest_pdf (env : Env) (store : Store) (file_path : string)
    (source_name : option string) : Store * nat :=
  let '(store', r) := ingest_pdf_try env store file_path source_name in
  (store', try_except r (λ _, 0)).

Definition is_pdf_name (f : string) : bool := PyStr.endswith ".pdf" (PyStr.lower f).

(** The loop over the PDF entries: the inner [try] skips an entry whose
    extraction raises; an exception of the removal that ends a turn is
    caught as well, after the total has been updated. *)
Fixpoint zip_loop (env : Env) (zip_path : string) (store : Store) (total_pages : nat)
    (pdf_files : list string) : Store * nat :=
  match pdf_files with
  | [] => (store, total_pages)
  | file_name :: rest =>
      match zip_extract env zip_path file_name (tmp_dir env) with
      | Raise _ => zip_loop env zip_path store total_pages rest
      | Ok extracted_path =>
          let '(store', pages) := ingest_pdf env store extracted_path (Some file_name) in
          let total_pages := total_pages + pages in
          match remove_extracted env extracted_path with
          | Ok _ => zip_loop env zip_path store' total_pages rest
          | Raise _ => zip_loop env zip_path store' total_pages rest
          end
      end
  end.

Definition ingest_zip (env : Env) (store : Store) (zip_path : string) : Store * nat :=
  match zip_namelist env zip_path with
  | Raise _ => (store, 0)
  | Ok all_files =>
      let pdf_files := filter (λ f, is_pdf_name f = true) all_files in
      zip_loop env zip_path store 0 pdf_files
  end.

(** The number of pages each PDF entry adds, in order: nothing for an
    entry that cannot be extracted. *)
Fixpoint entry_pages (env : Env) (zip_path : string) (store : Store)
    (pdf_files : list string) : list nat :=
  match pdf_files with
  | [] => []
  | file_name :: rest =>
      match zip_extract env zip_path file_name (tmp_dir env) with
      | Raise _ => 0 :: entry_pages env zip_path store rest
      | Ok extracted_path =>
          let '(store', pages) := ingest_pdf env store extracted_path (Some file_name) in
          pages :: entry_pages env zip_path store' rest
      end
  end.

End TrueCite.

(** ** The upload endpoints ([src/backend/main.py]) *)

Module Api.

(** The files on disk: path and content. *)
Abbreviation Files := (gmap string string).

(** FastAPI's [UploadFile]: the name the client gave and the bytes sent. *)
Record UploadFile := mkUpload { filename : string; file : string }.

(** [save_upload_file]: the upload is copied to a new temporary file, kept
    after closing ([delete=False]); [temp_name] is the name
    [NamedTemporaryFile] picks for the suffix of the upload's file name. *)
Definition save_upload_file (temp_name : UploadFile → string) (fs : Files)
    (upload_file : UploadFile) : string * Files :=
  let name := temp_name upload_file in
  (name, <[name := file upload_file]> fs).

(** [if os.path.exists(path): os.remove(path)] *)
Definition remove_if_exists (path : string) (fs : Files) : Files :=
  match fs !! path with
  | Some _ => delete path fs
  | None => fs
  end.

(** [ingest_policies]: the [try] block, then the [finally] clause on
    either outcome.  The temporary directory of [ingest_zip] is made and
    removed inside that call and is not part of [Files]. *)
Definition ingest_policies (env : Ingestion.Env) (temp_name : UploadFile → string)
    (store : Ingestion.Ingestor) (fs : Files) (upload : UploadFile)
  : Ingestion.Ingestor * Files * result (list (string * Main.JVal)) :=
  let '(temp_path, fs) := save_upload_file temp_name fs upload in
  let '(store, outcome) := Ingestion.ingest_zip env store temp_path in
  let response :=
    count ← outcome;
    mret [("message", Main.JStr "Ingestion successful");
          ("chunks_indexed", Main.JInt count)] in
  (store, remove_if_exists temp_path fs, response).

(** [run_bulk_audit_stream] with the files it touches. *)
Definition run_bulk_audit_stream (aenv : Auditor.Env) (xenv : Extractor.Env)
    (temp_name : UploadFile → string) (retriever : Auditor.Retriever)
    (fs : Files) (upload : UploadFile) : Files * Main.Response :=
  let '(path, fs) := save_upload_file temp_name fs upload in
  let response := Main.run_bulk_audit_stream aenv xenv retriever path in
  (remove_if_exists path fs, response).

End Api.

(** ** More deployments used in the examples *)

Module Scenario2.

(** An archive whose second entry cannot be extracted and whose third
    cannot be read; every readable PDF has two pages. *)
Definition parent_env : TrueCite.Env :=
  TrueCite.mkEnv
    (λ path, if PyStr.endswith "bad.pdf" path
             then Raise (Exc "PdfReadError" "EOF marker not found")
             else Ok [mkDocument "page 1" ∅; mkDocument "page 2" ∅])
    (λ store docs, (store ++ docs, Ok ()))
    (λ _, Ok ["a.pdf"; "locked.pdf"; "bad.pdf"; "readme.md"; "__MACOSX/._a.pdf"])
    (λ _ name dir, if decide (name = "locked.pdf")
                   then Raise (Exc "RuntimeError" "encrypted")
                   else Ok (dir +:+ "/" +:+ name))
    "/tmp/tmpz7"
    (λ _, Ok ()).

(** The same services behind an archive that cannot be opened. *)
Definition broken_zip_env : TrueCite.Env :=
  TrueCite.mkEnv (TrueCite.pdf_load parent_env) (TrueCite.add_documents parent_env)
    (λ _, Raise (Exc "BadZipFile" "File is not a zip file"))
    (TrueCite.zip_extract parent_env) (TrueCite.tmp_dir parent_env)
    (TrueCite.remove_extracted parent_env).

(** The flat ingestor of [Scenario] behind an archive that cannot be
    opened. *)
Definition broken_ingest_env : Ingestion.Env :=
  Ingestion.mkEnv
    (Ingestion.registrar_format Scenario.ingest_env)
    (Ingestion.tagger_llm Scenario.ingest_env)
    (Ingestion.json_loads Scenario.ingest_env)
    (Ingestion.py_str Scenario.ingest_env)
    (Ingestion.pdf_load Scenario.ingest_env)
    (Ingestion.split_documents Scenario.ingest_env)
    (Ingestion.vs_add Scenario.ingest_env)
    (λ _, Raise (Exc "BadZipFile" "File is not a zip file"))
    (Ingestion.zip_extractall Scenario.ingest_env)
    (Ingestion.tmp_dir Scenario.ingest_env).

(** The temporary name given to an upload. *)
Definition temp_name (upload : Api.UploadFile) : string := "/tmp/tmpk3.zip".

End Scenario2.

(** * Properties *)

(** ** Facts about the string operations *)

Module PyStrFacts.
Import PyStr.

Example split_on_separator : split "--" "a--b----c" = ["a"; "b"; ""; "c"].
Proof. reflexivity. Qed.

Example split_leftmost_first : split "aa" "aaa" = [""; "a"].
Proof. reflexivity. Qed.

Example split_without_separator : split "**STATUS**:" "no marker" = ["no marker"].
Proof. reflexivity. Qed.

Example strip_both_ends : strip (" " +:+ NL +:+ "a b " +:+ NL) = "a b".
Proof. reflexivity. Qed.

Example replace_all : replace "```" "" "```{x}```" = "{x}".
Proof. reflexivity. Qed.

Example pdf_suffix_any_case : endswith ".pdf" (lower "A/B.PDF") = true.
Proof. reflexivity. Qed.

Lemma drop_0 s : drop 0 s = s.
Proof. by destruct s. Qed.

Lemma app_cons c s t : String c s +:+ t = String c (s +:+ t).
Proof. reflexivity. Qed.

Lemma app_nil_l s : "" +:+ s = s.
Proof. reflexivity. Qed.

Lemma take_drop n s : take n s +:+ drop n s = s.
Proof.
  revert s; induction n as [|n IH]; intros [|c s]; simpl; try done.
  by rw app_cons IH.
Qed.

Lemma len_app s t : len (s +:+ t) = len s + len t.
Proof.
  induction s as [|c s IH]; [done|]. by rw app_cons /= IH.
Qed.

Lemma len_take n s : len (take n s) = n `min` len s.
Proof.
  revert s; induction n as [|n IH]; intros [|c s]; simpl; try done.
  by rw IH.
Qed.

Lemma len_drop n s : len (drop n s) = len s - n.
Proof.
  revert s; induction n as [|n IH]; intros [|c s]; simpl; try done.
Qed.

Lemma drop_drop n m s : drop n (drop m s) = drop (m + n) s.
Proof.
  revert s; induction m as [|m IH]; intros s; simpl.
  - done.
  - destruct s as [|c s]; [by destruct n | apply IH].
Qed.

Lemma app_nil_r s : s +:+ "" = s.
Proof. induction s as [|c s IH]; [done | by rw app_cons IH]. Qed.

Lemma app_assoc s t u : (s +:+ t) +:+ u = s +:+ t +:+ u.
Proof. induction s as [|c s IH]; [done | by rw !app_cons IH]. Qed.

Lemma startswith_empty s : s ≠ "" → startswith s "" = false.
Proof. by destruct s. Qed.

(** Passing over [k] characters is dropping them. *)
Lemma split_go_skip sep k s : split_go sep k s = split_go sep 0 (drop k s).
Proof.
  revert k; induction s as [|c s IH]; intros [|k]; try done.
  simpl. apply IH.
Qed.

Lemma contains_find sub s :
  contains sub s = match find sub s with Some _ => true | None => false end.
Proof.
  induction s as [|c s IH]; simpl.
  - by destruct (startswith sub "").
  - destruct (startswith sub (String c s)); [done|].
    rw IH /=. by destruct (find sub s).
Qed.

Lemma split_not_found sep s : sep ≠ "" → find sep s = None → split sep s = [s].
Proof.
  intros Hsep. unfold split. induction s as [|c s IH]; [done|].
  simpl. destruct (startswith sep (String c s)); [done|].
  destruct (find sep s); [done|]. intros _. by rw IH.
Qed.

Lemma split_found sep s i :
  sep ≠ "" → find sep s = Some i →
  split sep s = take i s :: split sep (drop (i + len sep) s).
Proof.
  intros Hsep. unfold split. revert i; induction s as [|c s IH]; intros i.
  - simpl. by rw startswith_empty.
  - simpl. destruct (startswith sep (String c s)).
    + intros [= <-]. rw split_go_skip. do 2 f_equal.
      destruct sep as [|a sep]; [done|]. simpl. by rw Nat.sub_0_r.
    + destruct (find sep s) as [j|]; [|done]. intros [= <-].
      by rw (IH j).
Qed.

(** [s.split(sep)[0]] is the text before the first [sep]. *)
Lemma split_first sep s : sep ≠ "" → split sep s !! 0 = Some (before sep s).
Proof.
  intros Hsep. unfold before. destruct (find sep s) as [i|] eqn:Hf.
  - by rw (split_found _ _ i).
  - by rw split_not_found.
Qed.

(** When [sep in s], [s.split(sep)[1]] is the text after the first [sep]
    up to the next one. *)
Lemma split_second sep s :
  sep ≠ "" → contains sep s = true →
  split sep s !! 1 = Some (before sep (after sep s)).
Proof.
  intros Hsep. rw contains_find. unfold after.
  destruct (find sep s) as [i|] eqn:Hf; [intros _|done].
  rw (split_found _ _ i) //=. by apply split_first.
Qed.

Lemma startswith_app p s : startswith p s = true → s = p +:+ drop (len p) s.
Proof.
  revert s; induction p as [|a p IH]; intros [|b s]; simpl; try done.
  destruct (decide (a = b)) as [->|]; [|done].
  intros H. by rw app_cons -(IH s H).
Qed.

(** [find] gives the leftmost position at which [sep] starts, and the text
    is what stands before it, [sep], and what stands after it. *)
Lemma find_leftmost sep s i :
  find sep s = Some i →
  s = take i s +:+ sep +:+ drop (i + len sep) s ∧
  startswith sep (drop i s) = true ∧
  ∀ j, j < i → startswith sep (drop j s) = false.
Proof.
  revert i; induction s as [|c s IH]; intros i; simpl.
  - destruct (startswith sep "") eqn:Hp; [|done]. intros [= <-].
    split; [by apply startswith_app|]. split; [done|]. intros j Hj. lia.
  - destruct (startswith sep (String c s)) eqn:Hp.
    + intros [= <-]. split; [by apply startswith_app|]. split; [done|].
      intros j Hj. lia.
    + destruct (find sep s) as [k|]; [|done]. intros [= <-].
      destruct (IH k eq_refl) as (Hs & Hk & Hmin).
      split; [by rw /= app_cons -Hs|]. split; [done|].
      intros [|j] Hj; [done|]. apply Hmin. lia.
Qed.

Lemma before_sep_after sep s :
  contains sep s = true → s = before sep s +:+ sep +:+ after sep s.
Proof.
  rw contains_find. unfold before, after.
  destruct (find sep s) as [i|] eqn:Hf; [intros _|done].
  by apply find_leftmost.
Qed.

Lemma index_lookup {A} (l : list A) i x : l !! i = Some x → index l i = Ok x.
Proof. unfold index. by intros ->. Qed.

End PyStrFacts.

(** ** The structured-response parser *)

Module ParserFacts.
Import PyStr PyStrFacts Auditor ParseSpec.

(** One statement of the parser: guarded by [marker in text], it stores
    the stripped section under [key] and never raises. *)
Lemma section_statement (marker : string) (next : option string)
    (key dflt text : string) (sections : gmap string string) :
  marker ≠ "" → from_option (λ n, n ≠ "") True next →
  (if contains marker text then
     a ← index (split marker text) 1;
     b ← match next with
         | Some n => index (split n a) 0
         | None => Ok a
         end;
     mret (<[key := strip b]> sections)
   else mret sections : result (gmap string string))
  = Ok (match find marker text with
        | Some _ => <[key := section_value marker next dflt text]> sections
        | None => sections
        end).
Proof.
  intros Hm Hn. unfold section_value, text_between.
  destruct (contains marker text) eqn:Hc.
  - rw (index_lookup _ _ _ (split_second _ _ Hm Hc)) /=.
    rw contains_find in Hc. destruct (find marker text); [|done].
    destruct next as [nx|]; simpl in *; [|done].
    by rw (index_lookup _ _ _ (split_first nx _ Hn)).
  - rw contains_find in Hc. by destruct (find marker text).
Qed.

Lemma parse_thinking_ok text sections :
  parse_thinking text sections
  = Ok (match find "**THINKING**:" text with
        | Some _ => <["thinking" := section_value "**THINKING**:" (Some "**STATUS**:")
                                      "No thinking provided." text]> sections
        | None => sections
        end).
Proof. by apply (section_statement _ (Some _)). Qed.

Lemma parse_status_ok text sections :
  parse_status text sections
  = Ok (match find "**STATUS**:" text with
        | Some _ => <["status" := section_value "**STATUS**:" (Some "**RATIONALE**:")
                                    "Unknown" text]> sections
        | None => sections
        end).
Proof. by apply (section_statement _ (Some _)). Qed.

Lemma parse_rationale_ok text sections :
  parse_rationale text sections
  = Ok (match find "**RATIONALE**:" text with
        | Some _ => <["rationale" := section_value "**RATIONALE**:"
                                       (Some "**EVIDENCE CITATION**:") "" text]> sections
        | None => sections
        end).
Proof. by apply (section_statement _ (Some _)). Qed.

Lemma parse_citation_ok text sections :
  parse_citation text sections
  = Ok (match find "**EVIDENCE CITATION**:" text with
        | Some _ => <["citation" := section_value "**EVIDENCE CITATION**:" None
                                      "" text]> sections
        | None => sections
        end).
Proof. by apply (section_statement _ None). Qed.

(** The dict after the four statements, none of which raises. *)
Lemma parse_run_unfold (text : string) :
  parse_run text
  = (let s1 := match find "**THINKING**:" text with
               | Some _ => <["thinking" := section_value "**THINKING**:"
                               (Some "**STATUS**:") "No thinking provided." text]>
                             default_sections
               | None => default_sections
               end in
     let s2 := match find "**STATUS**:" text with
               | Some _ => <["status" := section_value "**STATUS**:"
                               (Some "**RATIONALE**:") "Unknown" text]> s1
               | None => s1
               end in
     let s3 := match find "**RATIONALE**:" text with
               | Some _ => <["rationale" := section_value "**RATIONALE**:"
                               (Some "**EVIDENCE CITATION**:") "" text]> s2
               | None => s2
               end in
     match find "**EVIDENCE CITATION**:" text with
     | Some _ => <["citation" := section_value "**EVIDENCE CITATION**:" None
                     "" text]> s3
     | None => s3
     end, None).
Proof.
  unfold parse_run. simpl.
  by rw parse_thinking_ok parse_status_ok parse_rationale_ok parse_citation_ok.
Qed.

(** Reading the four keys of the parsed dict. *)
Lemma parsed_lookup (text : string) :
  _parse_structured_response text !! "thinking"
    = Some (section_value "**THINKING**:" (Some "**STATUS**:")
              "No thinking provided." text) ∧
  _parse_structured_response text !! "status"
    = Some (section_value "**STATUS**:" (Some "**RATIONALE**:") "Unknown" text) ∧
  _parse_structured_response text !! "rationale"
    = Some (section_value "**RATIONALE**:" (Some "**EVIDENCE CITATION**:") "" text) ∧
  _parse_structured_response text !! "citation"
    = Some (section_value "**EVIDENCE CITATION**:" None "" text).
Proof.
  unfold _parse_structured_response. rw parse_run_unfold.
  unfold section_value, default_sections.
  destruct (find "**THINKING**:" text), (find "**STATUS**:" text),
    (find "**RATIONALE**:" text), (find "**EVIDENCE CITATION**:" text);
    simpl; repeat split; by simplify_map_eq.
Qed.

(** C2 (amended): on every input the parser runs its four statements
    without raising; a section whose marker is absent keeps its default,
    and a section whose marker occurs holds the text after the first
    occurrence of its marker, up to the next occurrence of that marker
    and to the first occurrence of the following marker, with the white
    space around it removed. *)
Theorem parse_structured_response_spec (text : string) :
  (parse_run text).2 = None ∧
  _parse_structured_response text !! "thinking"
    = Some (section_value "**THINKING**:" (Some "**STATUS**:")
              "No thinking provided." text) ∧
  _parse_structured_response text !! "status"
    = Some (section_value "**STATUS**:" (Some "**RATIONALE**:") "Unknown" text) ∧
  _parse_structured_response text !! "rationale"
    = Some (section_value "**RATIONALE**:" (Some "**EVIDENCE CITATION**:") "" text) ∧
  _parse_structured_response text !! "citation"
    = Some (section_value "**EVIDENCE CITATION**:" None "" text) ∧
  dom (_parse_structured_response text)
    = ({["thinking"; "status"; "rationale"; "citation"]} : gset string).
Proof.
  unfold _parse_structured_response. rw parse_run_unfold.
  split; [done|].
  unfold section_value, default_sections.
  destruct (find "**THINKING**:" text), (find "**STATUS**:" text),
    (find "**RATIONALE**:" text), (find "**EVIDENCE CITATION**:" text);
    simpl; repeat split; try (by simplify_map_eq);
    rw ?dom_insert_L dom_empty_L; set_solver.
Qed.

(** C2 as stated fails: in a response with the four markers in order,
    the text between [**THINKING**:] and [**STATUS**:] is [" a "], with
    its spaces, and the parser stores ["a"]. *)
Lemma parse_section_is_not_text_between :
  _parse_structured_response
    ("**THINKING**:" +:+ " a " +:+ "**STATUS**:" +:+ " b " +:+
     "**RATIONALE**:" +:+ " c " +:+ "**EVIDENCE CITATION**:" +:+ " d")
    !! "thinking" = Some "a" ∧
  _parse_structured_response
    ("**THINKING**:" +:+ " a " +:+ "**STATUS**:" +:+ " b " +:+
     "**RATIONALE**:" +:+ " c " +:+ "**EVIDENCE CITATION**:" +:+ " d")
    !! "thinking" ≠ Some " a ".
Proof. split; [by vm_compute | by vm_compute]. Qed.

Example parse_well_formed :
  let r := _parse_structured_response
    ("**THINKING**: steps" +:+ NL +:+ "**STATUS**: Compliant" +:+ NL +:+
     "**RATIONALE**: because" +:+ NL +:+ "**EVIDENCE CITATION**: [Source: a.pdf]") in
  r !! "thinking" = Some "steps" ∧ r !! "status" = Some "Compliant" ∧
  r !! "rationale" = Some "because" ∧ r !! "citation" = Some "[Source: a.pdf]".
Proof. by vm_compute. Qed.

Example parse_status_missing :
  _parse_structured_response "**THINKING**: plan **RATIONALE**: because"
  !! "status" = Some "Unknown".
Proof. by vm_compute. Qed.

End ParserFacts.

(** ** The audit call *)

Module AuditorFacts.
Import PyStr PyStrFacts Auditor ParseSpec ParserFacts.

(** The parsed dict always has its four keys, so reading them never
    raises [KeyError] and the [try] block comes down to its four fallible
    steps. *)
Lemma run_audit_try_steps env question retriever :
  run_audit_try env question retriever =
  (docs ← retriever question;
   prompt ← prompt_format env (format_docs docs) question;
   response_text ← llm_invoke env prompt;
   sources ← validate_sources env (unique_sources docs);
   mret (mkAuditResult question
           (section_value "**THINKING**:" (Some "**STATUS**:")
              "No thinking provided." response_text)
           (section_value "**RATIONALE**:" (Some "**EVIDENCE CITATION**:") ""
              response_text +:+ NL +:+ NL +:+
            section_value "**EVIDENCE CITATION**:" None "" response_text)
           (section_value "**STATUS**:" (Some "**RATIONALE**:") "Unknown"
              response_text)
           sources)).
Proof.
  unfold run_audit_try.
  destruct (retriever question) as [docs|e]; [simpl|done].
  destruct (prompt_format env (format_docs docs) question) as [prompt|e]; [simpl|done].
  destruct (llm_invoke env prompt) as [response|e]; [simpl|done].
  destruct (parsed_lookup response) as (Ht & Hs & Hr & Hc).
  unfold getitem. by rw Ht Hs Hr Hc.
Qed.

Lemma raised_iff env question retriever e :
  raised env question retriever e ↔ run_audit_try env question retriever = Raise e.
Proof.
  rw run_audit_try_steps. split.
  - intros [e' H|docs e' H1 H2|docs prompt e' H1 H2 H3|docs prompt response H1 H2 H3 H4].
    + by rw H.
    + by rw H1 /= H2.
    + by rw H1 /= H2 /= H3.
    + rw H1 /= H2 /= H3 /=. unfold validate_sources. by rw H4.
  - destruct (retriever question) as [docs|e1] eqn:H1; simpl;
      [|intros [= <-]; by constructor 1].
    destruct (prompt_format env (format_docs docs) question) as [prompt|e2] eqn:H2;
      simpl; [|intros [= <-]; by econstructor 2].
    destruct (llm_invoke env prompt) as [response|e3] eqn:H3;
      simpl; [|intros [= <-]; by econstructor 3].
    unfold validate_sources.
    destruct (all_strings (unique_sources docs)) eqn:H4; simpl; [done|].
    intros [= <-]. by econstructor 4.
Qed.

(** C1: whatever the question, the retriever and the services do, an
    exception raised in the retrieval, the prompt, the model call or the
    construction of the result does not leave [run_audit]: the call
    returns the result with status ["Error"], the message of the
    exception in its answer and no sources. *)
Theorem run_audit_catches env question retriever e :
  raised env question retriever e →
  run_audit env question retriever
  = mkAuditResult question "Error during reasoning."
      ("Error running audit: " +:+ exc_msg e) "Error" [].
Proof.
  intros H%raised_iff. unfold run_audit. by rw H.
Qed.

(** A retriever that raises on every question. *)
Lemma run_audit_catches_witness :
  raised (mkEnv (λ c q, Ok (c +:+ q)) (λ p, Ok p) (λ _, ""))
    "Is MFA required?" (λ _, Raise (Exc "ConnectionError" "store unreachable"))
    (Exc "ConnectionError" "store unreachable") ∧
  run_audit (mkEnv (λ c q, Ok (c +:+ q)) (λ p, Ok p) (λ _, ""))
    "Is MFA required?" (λ _, Raise (Exc "ConnectionError" "store unreachable"))
  = mkAuditResult "Is MFA required?" "Error during reasoning."
      "Error running audit: store unreachable" "Error" [].
Proof.
  split.
  - by constructor 1.
  - apply (run_audit_catches _ _ _ (Exc "ConnectionError" "store unreachable")).
    by constructor 1.
Defined.

Lemma all_strings_Some l strs : all_strings l = Some strs → l = Some <$> strs.
Proof.
  unfold all_strings. intros H%mapM_Some_1.
  induction H as [|x y l k Hxy _ IH]; [done|]. simpl in *. by rw Hxy IH.
Qed.

Lemma all_strings_None l : None ∈ l → all_strings l = None.
Proof.
  unfold all_strings. intros H. destruct (mapM id l) as [strs|] eqn:Hm; [|done].
  apply all_strings_Some in Hm. subst l.
  apply list_elem_of_fmap in H as (? & ? & ?). done.
Qed.

Lemma elem_of_unique_sources docs o :
  o ∈ unique_sources docs ↔ ∃ d, d ∈ docs ∧ metadata d !! "source_file" = o.
Proof.
  unfold unique_sources. rw elem_of_elements elem_of_list_to_set list_elem_of_fmap.
  split; [intros (d & -> & Hd) | intros (d & Hd & <-)]; by exists d.
Qed.

(** C3: when the [try] block of [run_audit] completes, the result it
    returns has the parsed rationale, two line feeds and the parsed
    citation as its answer, and its sources are, without duplicates, the
    [source_file] values of all the chunks the retriever returned; the
    answer of the model has no part in them. *)
Theorem run_audit_success env question retriever res :
  run_audit_try env question retriever = Ok res →
  run_audit env question retriever = res ∧
  ∃ docs prompt response_text,
    retriever question = Ok docs ∧
    prompt_format env (format_docs docs) question = Ok prompt ∧
    llm_invoke env prompt = Ok response_text ∧
    _parse_structured_response response_text !! "rationale"
      = Some (section_value "**RATIONALE**:" (Some "**EVIDENCE CITATION**:") ""
                response_text) ∧
    _parse_structured_response response_text !! "citation"
      = Some (section_value "**EVIDENCE CITATION**:" None "" response_text) ∧
    answer res
      = section_value "**RATIONALE**:" (Some "**EVIDENCE CITATION**:") ""
          response_text +:+ NL +:+ NL +:+
        section_value "**EVIDENCE CITATION**:" None "" response_text ∧
    NoDup (sources res) ∧
    ∀ s, s ∈ sources res ↔ ∃ d, d ∈ docs ∧ metadata d !! "source_file" = Some s.
Proof.
  intros H. split; [unfold run_audit; by rw H|].
  rw run_audit_try_steps in H.
  destruct (retriever question) as [docs|] eqn:H1; [simpl in H|done].
  destruct (prompt_format env (format_docs docs) question) as [prompt|] eqn:H2;
    [simpl in H|done].
  destruct (llm_invoke env prompt) as [response|] eqn:H3; [simpl in H|done].
  unfold validate_sources in H.
  destruct (all_strings (unique_sources docs)) as [strs|] eqn:H4; [|done].
  injection H as <-. simpl.
  exists docs, prompt, response.
  destruct (parsed_lookup response) as (_ & _ & Hr & Hc).
  apply all_strings_Some in H4.
  repeat split; try done.
  - eapply (NoDup_fmap_1 Some). rw -H4. unfold unique_sources. apply NoDup_elements.
  - intros Hs. apply elem_of_unique_sources. rw H4. by apply list_elem_of_fmap_2.
  - intros Hd%elem_of_unique_sources. rw H4 in Hd.
    by apply list_elem_of_fmap in Hd as (s' & [= ->] & Hs').
Qed.

(** Two chunks of one file and one of another, a model that answers
    with the four sections. *)
Lemma run_audit_success_witness :
  ∃ res,
    let env := mkEnv (λ c q, Ok (c +:+ q))
                 (λ _, Ok "**STATUS**: Compliant **RATIONALE**: r **EVIDENCE CITATION**: c")
                 (λ _, "") in
    let retriever : Retriever := λ _,
      Ok [mkDocument "x" {["source_file" := "a.pdf"]};
          mkDocument "y" {["source_file" := "b.pdf"]};
          mkDocument "z" {["source_file" := "a.pdf"]}] in
    run_audit_try env "q" retriever = Ok res ∧
    run_audit env "q" retriever = res ∧
    answer res = "r" +:+ NL +:+ NL +:+ "c" ∧
    length (sources res) = 2.
Proof.
  eexists. simpl.
  split; [by vm_compute|].
  split; [|by vm_compute].
  refine (proj1 (run_audit_success _ _ _ _ _)). by vm_compute.
Defined.

(** C10: when a retrieved chunk has no ["source_file"] entry, the [None]
    collected for it is rejected by the validation of [sources], inside
    the [try] block: whenever the model call returns, the call ends in
    the [except] clause on a [ValidationError], and in every case it
    returns the result with status ["Error"] and no sources, although
    [format_docs] renders that chunk under the name ["Unknown Source"]. *)
Theorem run_audit_missing_source_file env question retriever docs d :
  retriever question = Ok docs →
  d ∈ docs →
  metadata d !! "source_file" = None →
  None ∈ unique_sources docs ∧
  validate_sources env (unique_sources docs)
    = Raise (Exc "ValidationError" (validation_message env (unique_sources docs))) ∧
  (∀ prompt response_text,
     prompt_format env (format_docs docs) question = Ok prompt →
     llm_invoke env prompt = Ok response_text →
     run_audit env question retriever
     = error_result question
         (Exc "ValidationError" (validation_message env (unique_sources docs)))) ∧
  (∃ e, raised env question retriever e ∧
        run_audit env question retriever = error_result question e) ∧
  status (run_audit env question retriever) = "Error" ∧
  sources (run_audit env question retriever) = [] ∧
  format_doc d
    = "[Source: Unknown Source]" +:+ NL +:+
      replace NL " " (page_content d) +:+ NL.
Proof.
  intros Hdocs Hd Hmissing.
  assert (None ∈ unique_sources docs) as Hnone.
  { apply elem_of_unique_sources. by exists d. }
  assert (all_strings (unique_sources docs) = None) as Hall
    by by apply all_strings_None.
  assert (∃ e, raised env question retriever e) as [e He].
  { destruct (prompt_format env (format_docs docs) question) as [prompt|e] eqn:H2;
      [|eexists; by econstructor 2].
    destruct (llm_invoke env prompt) as [response|e] eqn:H3;
      [|eexists; by econstructor 3].
    eexists. by econstructor 4. }
  pose proof He as Hrun%raised_iff.
  split; [done|]. split; [unfold validate_sources; by rw Hall|].
  split.
  { intros prompt response H2 H3. unfold run_audit.
    by rw (proj1 (raised_iff _ _ _ _)
              (raised_validation env question retriever docs prompt response
                 Hdocs H2 H3 Hall)). }
  split; [exists e; split; [done|]; unfold run_audit; by rw Hrun|].
  unfold run_audit. rw Hrun /=. repeat split.
  unfold format_doc. by rw Hmissing.
Qed.

(** One chunk without ["source_file"] among the retrieved ones. *)
Lemma run_audit_missing_source_file_witness :
  let env := mkEnv (λ c q, Ok (c +:+ q))
               (λ _, Ok "**STATUS**: Compliant **RATIONALE**: r **EVIDENCE CITATION**: c")
               (λ _, "Input should be a valid string") in
  let docs := [mkDocument "x" {["source_file" := "a.pdf"]};
               mkDocument "y" {["doc_title" := "Leave Policy"]}] in
  let retriever : Retriever := λ _, Ok docs in
  status (run_audit env "q" retriever) = "Error" ∧
  sources (run_audit env "q" retriever) = [] ∧
  answer (run_audit env "q" retriever)
    = "Error running audit: Input should be a valid string" ∧
  format_docs docs
    = "[Source: a.pdf]" +:+ NL +:+ "x" +:+ NL +:+ NL +:+ "---" +:+ NL +:+
      "[Source: Unknown Source]" +:+ NL +:+ "y" +:+ NL.
Proof.
  intros env docs retriever.
  destruct (run_audit_missing_source_file env "q" retriever docs
              (mkDocument "y" {["doc_title" := "Leave Policy"]}))
    as (_ & _ & _ & _ & Hstatus & Hsources & _).
  - reflexivity.
  - apply list_elem_of_In. simpl. auto.
  - by vm_compute.
  - split; [exact Hstatus|]. split; [exact Hsources|]. split; by vm_compute.
Defined.

End AuditorFacts.

(** ** Ingestion *)

Module IngestionFacts.
Import PyStr PyStrFacts Ingestion.

(** C4: the tagger hands the model one prompt at most, built from the
    first 3000 characters of the page text and from nothing else of it,
    and it returns the decoded answer when every step succeeds and the
    pair [Unknown Policy], [General] when the template, the model or
    the JSON decoder raises. *)
Theorem get_actual_metadata_spec (env : Env) (calls : nat) (first_page_text : string) :
  len (take 3000 first_page_text) ≤ 3000 ∧
  first_page_text = take 3000 first_page_text +:+ drop 3000 first_page_text ∧
  tagger_prompts env calls first_page_text
    = match registrar_format env (take 3000 first_page_text) with
      | Ok prompt => [prompt]
      | Raise _ => []
      end ∧
  (∀ other_text, take 3000 other_text = take 3000 first_page_text →
     tagger_try env calls other_text = tagger_try env calls first_page_text) ∧
  _get_actual_metadata env calls first_page_text
    = match registrar_format env (take 3000 first_page_text) with
      | Raise _ => fallback_metadata
      | Ok prompt =>
          match tagger_llm env calls prompt with
          | Raise _ => fallback_metadata
          | Ok content =>
              match json_loads env (clean_json content) with
              | Raise _ => fallback_metadata
              | Ok doc_info => doc_info
              end
          end
      end ∧
  py_get fallback_metadata "formal_title" JNull = Ok (JString "Unknown Policy") ∧
  py_get fallback_metadata "category" JNull = Ok (JString "General") ∧
  fallback_metadata
    = JObject [("formal_title", JString "Unknown Policy"); ("category", JString "General")].
Proof.
  split; [rw len_take; lia|].
  split; [by rw take_drop|].
  unfold tagger_prompts, _get_actual_metadata, tagger_try.
  split; [by destruct (registrar_format env _)|].
  split; [by intros other ->|].
  split; [|done].
  destruct (registrar_format env _) as [prompt|]; [simpl|done].
  destruct (tagger_llm env calls prompt) as [content|]; [simpl|done].
  by destruct (json_loads env _).
Qed.

(** A tagging model that is out of quota: one prompt is sent and the
    fallback pair comes back. *)
Lemma get_actual_metadata_spec_witness :
  tagger_prompts Scenario.ingest_env 0 "Employees may work remotely."
    = ["Identify this doc. Text: Employees may work remotely."] ∧
  _get_actual_metadata Scenario.ingest_env 0 "Employees may work remotely."
    = fallback_metadata.
Proof.
  destruct (get_actual_metadata_spec Scenario.ingest_env 0 "Employees may work remotely.")
    as (_ & _ & Hprompts & _ & Hresult & _).
  split; [by rw Hprompts | by rw Hresult].
Defined.

Example tagger_fallback_on_failure :
  _get_actual_metadata Scenario.ingest_env 0 "Employees may work remotely."
  = fallback_metadata.
Proof. reflexivity. Qed.

Example tagger_decodes_answer :
  py_get (_get_actual_metadata Scenario.tagging_env 0 "Employees may work remotely.")
    "formal_title" (JString "a.pdf") = Ok (JString "Remote Work Policy").
Proof. by vm_compute. Qed.

Example tagger_decodes_list :
  _get_actual_metadata Scenario.list_answer_env 0 "Employees may work remotely."
  = JArray [].
Proof. by vm_compute. Qed.

Lemma ingest_pdf_try_count env ingestor file_path original_name :
  (ingest_pdf env ingestor file_path original_name).2
  = try_except (ingest_pdf_try env ingestor file_path original_name).2 (λ _, 0).
Proof.
  unfold ingest_pdf. by destruct (ingest_pdf_try env ingestor file_path original_name).
Qed.

Lemma ingest_loop_total env files :
  ∀ ingestor total,
    (ingest_loop env ingestor total files).2
    = total + sum_list (loop_counts env ingestor files).
Proof.
  induction files as [|f rest IH]; intros ingestor total; simpl; [lia|].
  destruct (ingest_pdf env ingestor (path_join (tmp_dir env) f) f) as [ingestor' count].
  rw IH /=. lia.
Qed.

Lemma loop_counts_length env files :
  ∀ ingestor, length (loop_counts env ingestor files) = length files.
Proof.
  induction files as [|f rest IH]; intros ingestor; simpl; [done|].
  destruct (ingest_pdf env ingestor (path_join (tmp_dir env) f) f) as [ingestor' count].
  by rw /= IH.
Qed.

(** What [ingest_pdf] does once the first page is tagged, by the value
    the tagger returned. *)
Lemma ingest_pdf_tagged env ingestor file_path original_name first_page other_pages :
  pdf_load env file_path = Ok (first_page :: other_pages) →
  ingest_pdf env ingestor file_path original_name
  = let calls := tagger_calls ingestor in
    let calls' := calls + length (tagger_prompts env calls (page_content first_page)) in
    match _get_actual_metadata env calls (page_content first_page) with
    | JObject entries =>
        match split_documents env CHUNK_SIZE CHUNK_OVERLAP (first_page :: other_pages) with
        | Raise _ => (mkIngestor (vectorstore ingestor) calls', 0)
        | Ok chunks =>
            match vs_add env (vectorstore ingestor)
                    (stamp_value env
                       (default (JString original_name) (dict_get "formal_title" entries))
                       (default (JString "General") (dict_get "category" entries))
                       original_name <$> chunks) with
            | (store', Raise _) => (mkIngestor store' calls', 0)
            | (store', Ok _) => (mkIngestor store' calls', length chunks)
            end
        end
    | _ => (mkIngestor (vectorstore ingestor) calls', 0)
    end.
Proof.
  intros H. unfold ingest_pdf, ingest_pdf_try. rw H. cbv beta iota zeta.
  destruct (_get_actual_metadata env (tagger_calls ingestor) (page_content first_page));
    try done.
  cbn [py_get].
  destruct (split_documents env CHUNK_SIZE CHUNK_OVERLAP (first_page :: other_pages));
    [|done].
  destruct (vs_add env _ _) as [store' [[]|]]; [|done]. by rw /= length_fmap.
Qed.

(** C5 (amended): an exception raised while one document is loaded or
    split, and any other exception of the [try] block, such as the
    [AttributeError] on a tagger answer that decodes to something else
    than a JSON object, is caught by [ingest_pdf], which returns 0 for the
    document; an exception raised during tagging, in the template, the
    model call or the JSON decoder, is caught inside the tagger, which
    returns the fallback pair: it does not make [ingest_pdf] return 0, and
    the document counts its chunks when it is split and stored; ZIP-level
    ingestion goes on with the next file and returns the sum of the
    per-file counts. *)
Theorem ingest_failure_policy (env : Env) (ingestor : Ingestor)
    (file_path original_name : string) :
  (∀ e, pdf_load env file_path = Raise e →
     ingest_pdf env ingestor file_path original_name = (ingestor, 0)) ∧
  (∀ pages e,
     pdf_load env file_path = Ok pages →
     split_documents env CHUNK_SIZE CHUNK_OVERLAP pages = Raise e →
     (ingest_pdf env ingestor file_path original_name).2 = 0 ∧
     vectorstore (ingest_pdf env ingestor file_path original_name).1
     = vectorstore ingestor) ∧
  (∀ e, (ingest_pdf_try env ingestor file_path original_name).2 = Raise e →
     (ingest_pdf env ingestor file_path original_name).2 = 0) ∧
  (∀ first_page other_pages,
     pdf_load env file_path = Ok (first_page :: other_pages) →
     (∀ entries,
        _get_actual_metadata env (tagger_calls ingestor) (page_content first_page)
        ≠ JObject entries) →
     (∃ e, (ingest_pdf_try env ingestor file_path original_name).2 = Raise e ∧
           exc_class e = "AttributeError") ∧
     (ingest_pdf env ingestor file_path original_name).2 = 0 ∧
     vectorstore (ingest_pdf env ingestor file_path original_name).1
     = vectorstore ingestor) ∧
  (∀ first_page other_pages chunks store' e,
     pdf_load env file_path = Ok (first_page :: other_pages) →
     (tagger_try env (tagger_calls ingestor) (page_content first_page)).2 = Raise e →
     split_documents env CHUNK_SIZE CHUNK_OVERLAP (first_page :: other_pages)
       = Ok chunks →
     vs_add env (vectorstore ingestor)
       (stamp_value env (JString "Unknown Policy") (JString "General") original_name
          <$> chunks) = (store', Ok ()) →
     _get_actual_metadata env (tagger_calls ingestor) (page_content first_page)
     = fallback_metadata ∧
     (ingest_pdf env ingestor file_path original_name).2 = length chunks ∧
     vectorstore (ingest_pdf env ingestor file_path original_name).1 = store') ∧
  (∀ zip_path names,
     zip_namelist env zip_path = Ok names →
     zip_extractall env zip_path (tmp_dir env) = Ok () →
     let pdf_files := filter (λ f, is_pdf_entry f = true) names in
     (ingest_zip env ingestor zip_path).2
       = Ok (sum_list (loop_counts env ingestor pdf_files)) ∧
     length (loop_counts env ingestor pdf_files) = length pdf_files).
Proof.
  split; [|split; [|split; [|split; [|split]]]].
  - intros e H. unfold ingest_pdf, ingest_pdf_try. by rw H.
  - intros pages e H1 H2. destruct pages as [|first other].
    { unfold ingest_pdf, ingest_pdf_try. by rw H1. }
    rw (ingest_pdf_tagged _ _ _ _ _ _ H1). cbv zeta. rw H2.
    by destruct (_get_actual_metadata env _ _).
  - intros e H. rw ingest_pdf_try_count. by rw H.
  - intros first other H1 Hno. split.
    + unfold ingest_pdf_try. rw H1. cbv beta iota zeta.
      destruct (_get_actual_metadata env (tagger_calls ingestor) (page_content first))
        as [| | | | | |entries] eqn:E; try (by eexists).
      by destruct (Hno entries).
    + rw (ingest_pdf_tagged _ _ _ _ _ _ H1). cbv zeta.
      destruct (_get_actual_metadata env (tagger_calls ingestor) (page_content first))
        as [| | | | | |entries] eqn:E; try done.
      by destruct (Hno entries).
  - intros first other chunks store' e H1 He H2 H3.
    assert (_get_actual_metadata env (tagger_calls ingestor) (page_content first)
            = fallback_metadata) as Hfb.
    { unfold _get_actual_metadata. by rw He. }
    split; [done|].
    rw (ingest_pdf_tagged _ _ _ _ _ _ H1). cbv zeta. rw Hfb. unfold fallback_metadata.
    rw H2.
    change (default (JString original_name) (dict_get "formal_title" _))
      with (JString "Unknown Policy").
    change (default (JString "General") (dict_get "category" _)) with (JString "General").
    by rw H3.
  - intros zip_path names H1 H2 pdf_files. split; [|apply loop_counts_length].
    unfold ingest_zip. rw H1 H2. fold pdf_files.
    pose proof (ingest_loop_total env pdf_files ingestor 0) as Ht.
    destruct (ingest_loop env ingestor 0 pdf_files) as [ingestor' total].
    simpl in *. by rw Ht.
Qed.

(** The archive of the scenario: [a.pdf] and [B.PDF] give one chunk
    each, [bad.pdf] cannot be read and gives none, the other two entries
    are not PDF entries; and a tagger that answers with a JSON list. *)
Lemma ingest_failure_policy_witness :
  pdf_load Scenario.ingest_env "/tmp/tmpq1/bad.pdf"
    = Raise (Exc "PdfReadError" "EOF marker not found") ∧
  ingest_pdf Scenario.ingest_env (mkIngestor [] 0) "/tmp/tmpq1/bad.pdf" "bad.pdf"
    = (mkIngestor [] 0, 0) ∧
  loop_counts Scenario.ingest_env (mkIngestor [] 0) ["a.pdf"; "bad.pdf"; "B.PDF"]
    = [1; 0; 1] ∧
  (ingest_zip Scenario.ingest_env (mkIngestor [] 0) "policies.zip").2 = Ok 2 ∧
  (ingest_pdf Scenario.list_answer_env (mkIngestor [] 0) "/tmp/tmpq1/a.pdf" "a.pdf").2 = 0.
Proof.
  destruct (ingest_failure_policy Scenario.ingest_env (mkIngestor [] 0)
              "/tmp/tmpq1/bad.pdf" "bad.pdf")
    as (Hload & _ & _ & _ & _ & Hzip).
  destruct (ingest_failure_policy Scenario.list_answer_env (mkIngestor [] 0)
              "/tmp/tmpq1/a.pdf" "a.pdf")
    as (_ & _ & _ & Hlist & _).
  split; [reflexivity|].
  split; [apply (Hload (Exc "PdfReadError" "EOF marker not found")); reflexivity|].
  split; [by vm_compute|].
  split.
  - destruct (Hzip "policies.zip"
                ["a.pdf"; "bad.pdf"; "notes.txt"; "__MACOSX/a.pdf"; "B.PDF"])
      as [-> _]; [reflexivity | reflexivity | by vm_compute].
  - apply (Hlist (mkDocument "Employees may work remotely." ∅) []); [reflexivity|].
    intros entries. by vm_compute.
Defined.

(** C5 as stated fails for the tagging step: the tagging model raises,
    the exception is absorbed inside [_get_actual_metadata], and
    [ingest_pdf] returns the chunk count 1, not 0. *)
Lemma tagging_failure_still_ingests :
  (tagger_try Scenario.ingest_env 0 "Employees may work remotely.").2
    = Raise (Exc "ResourceExhausted" "quota exceeded") ∧
  (ingest_pdf Scenario.ingest_env (mkIngestor [] 0) "/tmp/tmpq1/a.pdf" "a.pdf").2 = 1 ∧
  (ingest_pdf Scenario.ingest_env (mkIngestor [] 0) "/tmp/tmpq1/a.pdf" "a.pdf").2 ≠ 0.
Proof. split; [reflexivity|]. split; by vm_compute. Qed.

Lemma zip_fmap_documents (store : Store) :
  (λ p, mkDocument p.1 p.2) <$> zip (page_content <$> store) (metadata <$> store)
  = store.
Proof.
  induction store as [|[content md] store IH]; [done|].
  cbn. by f_equal.
Qed.

(** C6: on an empty store [get_retriever] returns the vector retriever
    alone; on any other store it returns the ensemble of the BM25
    retriever, built over all the stored chunks, and the vector
    retriever, in that order, with weights 0.3 and 0.7, each of the two
    limited to [RETRIEVAL_K] = 5 results. *)
Theorem get_retriever_spec (store : Store) :
  get_retriever store
  = match store with
    | [] => VectorStoreRetriever RETRIEVAL_K
    | _ :: _ =>
        EnsembleRetriever
          [BM25Retriever store RETRIEVAL_K; VectorStoreRetriever RETRIEVAL_K]
          [3 # 10; 7 # 10]%Q
    end ∧
  ((vs_get store).1 = [] ↔ store = []) ∧
  result_limit (BM25Retriever store RETRIEVAL_K) = Some 5 ∧
  result_limit (VectorStoreRetriever RETRIEVAL_K) = Some 5 ∧
  (3 # 10 == 0.3)%Q ∧ (7 # 10 == 0.7)%Q.
Proof.
  split; [|split; [|done]].
  - unfold get_retriever. destruct store as [|d store]; [done|].
    cbn [vs_get fst snd]. rw (zip_fmap_documents (d :: store)). done.
  - by destruct store.
Qed.

Example get_retriever_empty : get_retriever [] = VectorStoreRetriever 5.
Proof. reflexivity. Qed.

Example get_retriever_after_ingestion :
  ∃ chunk,
    vectorstore
      (ingest_pdf Scenario.tagging_env (mkIngestor [] 0) "/tmp/tmpq1/a.pdf" "a.pdf").1
      = [chunk] ∧
    metadata chunk !! "source_file" = Some "a.pdf" ∧
    metadata chunk !! "doc_title" = Some "Remote Work Policy" ∧
    get_retriever [chunk]
    = EnsembleRetriever [BM25Retriever [chunk] 5; VectorStoreRetriever 5]
        [3 # 10; 7 # 10]%Q.
Proof. eexists. split; [by vm_compute|]. split; [by vm_compute|]. by split. Qed.

End IngestionFacts.

(** ** Question extraction and the bulk-audit stream *)

Module MainFacts.
Import PyStr Auditor Extractor Main.

Lemma run_audit_question env q retriever : question (run_audit env q retriever) = q.
Proof.
  unfold run_audit. rw AuditorFacts.run_audit_try_steps.
  destruct (retriever q) as [docs|]; [simpl|done].
  destruct (prompt_format env (format_docs docs) q) as [prompt|]; [simpl|done].
  destruct (llm_invoke env prompt) as [response|]; [simpl|done].
  by destruct (validate_sources env (unique_sources docs)).
Qed.

(** The record one turn of the loop yields after its keep-alive text. *)
Lemma audit_one_record audit q_text :
  audit_one audit q_text
  = [Text " ";
     JsonLine match audit q_text with
              | Ok res => result_record res
              | Raise e => failure_record q_text e
              end].
Proof. unfold audit_one. by destruct (audit q_text). Qed.

Lemma audit_one_tags audit q_text u :
  u ∈ audit_one audit q_text → u = Text " " ∨ tag_of u = Some (JStr "result").
Proof.
  rw audit_one_record. intros [->|[->|[]%elem_of_nil]%elem_of_cons]%elem_of_cons.
  - by left.
  - right. by destruct (audit q_text).
Qed.

Lemma records_loop audit questions :
  records (questions ≫= audit_one audit)
  = (λ q, match audit q with
          | Ok res => result_record res
          | Raise e => failure_record q e
          end) <$> questions.
Proof.
  induction questions as [|q qs IH]; [done|].
  rw bind_cons audit_one_record. unfold records in *. cbn. by rw IH.
Qed.

(** The units of the stream as the generator yields them: the record
    tagged ["meta"] with the number of questions, then, for each question
    in order, a text of one space and a record tagged ["result"] with the
    fields of the audit result of that question. *)
Lemma audit_stream_shape (aenv : Auditor.Env) (retriever : Auditor.Retriever)
    (questions : list string) :
  let stream := audit_generator (λ q, Ok (run_audit aenv q retriever)) questions in
  stream !! 0 = Some (JsonLine [("type", JStr "meta"); ("total", JInt (length questions))]) ∧
  stream = JsonLine [("type", JStr "meta"); ("total", JInt (length questions))]
           :: (questions ≫= λ q,
                 [Text " "; JsonLine (result_record (run_audit aenv q retriever))]) ∧
  records stream
    = [("type", JStr "meta"); ("total", JInt (length questions))]
      :: ((λ q, result_record (run_audit aenv q retriever)) <$> questions) ∧
  (∀ u, u ∈ stream →
     u = Text " " ∨ tag_of u = Some (JStr "meta") ∨ tag_of u = Some (JStr "result")) ∧
  (∀ i q, questions !! i = Some q →
     ∃ record, records stream !! S i = Some record ∧
               record_get "type" record = Some (JStr "result") ∧
               record_get "question" record = Some (JStr q)).
Proof.
  intros stream. unfold stream, audit_generator.
  split; [done|]. split; [done|]. split; [|split].
  - unfold records. cbn. f_equal.
    exact (records_loop (λ q, Ok (run_audit aenv q retriever)) questions).
  - intros u [->|Hu]%elem_of_cons; [by right; left|].
    apply list_elem_of_bind in Hu as (q & Hu & _).
    apply audit_one_tags in Hu as [->| ->]; auto.
  - intros i q Hq. unfold records. cbn.
    pose proof (records_loop (λ q, Ok (run_audit aenv q retriever)) questions) as Hr.
    unfold records in Hr. rw Hr list_lookup_fmap Hq /=.
    eexists. split; [done|]. split; [done|]. cbn. by rw run_audit_question.
Qed.

(** The units yielded for one question. *)
Example audit_stream_one_question :
  audit_generator
    (λ q, Ok (run_audit Scenario.audit_env q Scenario.one_chunk_retriever))
    ["Is MFA required?"]
  = [JsonLine [("type", JStr "meta"); ("total", JInt 1)];
     Text " ";
     JsonLine [("type", JStr "result"); ("question", JStr "Is MFA required?");
               ("thinking", JStr "t"); ("answer", JStr ("r" +:+ NL +:+ NL +:+ "c"));
               ("status", JStr "Compliant"); ("sources", JStrList ["a.pdf"])]].
Proof.
  destruct (audit_stream_shape Scenario.audit_env Scenario.one_chunk_retriever
              ["Is MFA required?"]) as (_ & Hstream & _).
  rw Hstream. by vm_compute.
Qed.

(** The text of one space yielded before a result is no record of its
    own: it stands at the start of the line of that result. *)
Example space_before_result :
  audit_generator
    (λ q, Ok (run_audit Scenario.audit_env q Scenario.one_chunk_retriever))
    ["Is MFA required?"] !! 1 = Some (Text " ") ∧
  tag_of (Text " ") = None ∧
  ∃ record,
    read_lines ""
      (audit_generator
         (λ q, Ok (run_audit Scenario.audit_env q Scenario.one_chunk_retriever))
         ["Is MFA required?"]) !! 1 = Some (RecordLine " " record) ∧
    record_get "type" record = Some (JStr "result").
Proof. split; [done|]. split; [done|]. eexists. split; [by vm_compute | done]. Qed.





Example bulk_audit_two_questions :
  ∃ body,
    run_bulk_audit_stream Scenario.audit_env Scenario.questions_env
      Scenario.one_chunk_retriever "upload.pdf"
    = StreamingResponse body "application/x-ndjson" ∧
    length body = 5 ∧
    records body
    = [[("type", JStr "meta"); ("total", JInt 2)];
       [("type", JStr "result"); ("question", JStr "Is MFA required?");
        ("thinking", JStr "t"); ("answer", JStr ("r" +:+ NL +:+ NL +:+ "c"));
        ("status", JStr "Compliant"); ("sources", JStrList ["a.pdf"])];
       [("type", JStr "result"); ("question", JStr "Are backups tested?");
        ("thinking", JStr "t"); ("answer", JStr ("r" +:+ NL +:+ NL +:+ "c"));
        ("status", JStr "Compliant"); ("sources", JStrList ["a.pdf"])]].
Proof. eexists. split; [by vm_compute|]. split; by vm_compute. Qed.

(** C8 (amended): the extractor returns the empty list when the loader
    or the chain (model call and JSON parsing) raises; and when the
    extracted list is empty the bulk-audit endpoint raises
    [HTTPException] with status 400 and the detail
    ["Could not extract any questions."]: no stream is started, so no
    record, neither a count nor a result, is produced. *)
Theorem extraction_failure_policy (xenv : Extractor.Env) (path : string) :
  (∀ e, Extractor.pdf_load xenv path = Raise e → extract_from_file xenv path = []) ∧
  (∀ pages e,
     Extractor.pdf_load xenv path = Ok pages →
     chain_invoke xenv (join NL (page_content <$> pages)) (format_instructions xenv)
       = Raise e →
     extract_from_file xenv path = []) ∧
  (∀ e, extract_try xenv path = Raise e → extract_from_file xenv path = []) ∧
  (∀ aenv retriever,
     extract_from_file xenv path = [] →
     run_bulk_audit_stream aenv xenv retriever path
     = HTTPException 400 "Could not extract any questions.").
Proof.
  unfold run_bulk_audit_stream, extract_from_file, extract_try.
  split; [|split; [|split]].
  - intros e H. by rw H.
  - intros pages e H1 H2. by rw H1 /= H2.
  - intros e H. by rw H.
  - intros aenv retriever H. by rw H.
Qed.

(** An upload the loader cannot read. *)
Lemma extraction_failure_policy_witness :
  Extractor.pdf_load Scenario.unreadable_env "upload.pdf"
    = Raise (Exc "PdfReadError" "EOF marker not found") ∧
  extract_from_file Scenario.unreadable_env "upload.pdf" = [] ∧
  run_bulk_audit_stream Scenario.audit_env Scenario.unreadable_env
    Scenario.one_chunk_retriever "upload.pdf"
  = HTTPException 400 "Could not extract any questions.".
Proof.
  destruct (extraction_failure_policy Scenario.unreadable_env "upload.pdf")
    as (Hload & _ & _ & Hendpoint).
  split; [reflexivity|].
  split; [apply (Hload (Exc "PdfReadError" "EOF marker not found")); reflexivity|].
  apply Hendpoint. reflexivity.
Defined.

(** C8 as stated fails: with an empty extraction the endpoint does not
    answer with a stream announcing zero items; the request ends in the
    raised [HTTPException]. *)
Lemma empty_extraction_is_rejected :
  extract_from_file Scenario.unreadable_env "upload.pdf" = [] ∧
  run_bulk_audit_stream Scenario.audit_env Scenario.unreadable_env
    Scenario.one_chunk_retriever "upload.pdf"
  = HTTPException 400 "Could not extract any questions." ∧
  ¬ ∃ body media_type,
      run_bulk_audit_stream Scenario.audit_env Scenario.unreadable_env
        Scenario.one_chunk_retriever "upload.pdf"
      = StreamingResponse body media_type.
Proof. split; [reflexivity|]. split; [reflexivity|]. by intros (body & media_type & H). Qed.

End MainFacts.

(** ** The chunker of the specification *)

Module ChunkerFacts.
Import PyStr PyStrFacts Chunker.

Lemma take_all n s : len s ≤ n → take n s = s.
Proof.
  revert s; induction n as [|n IH]; intros [|c s] H; simpl in *; try done; [lia|].
  rw IH; [done|lia].
Qed.

Lemma drop_app n s t : n ≤ len s → drop n (s +:+ t) = drop n s +:+ t.
Proof.
  revert s; induction n as [|n IH]; intros [|c s] H; simpl in *; try done; [lia|].
  apply IH. lia.
Qed.

Lemma join_empty_cons p pieces : join "" (p :: pieces) = p +:+ join "" pieces.
Proof. destruct pieces; [by rw /= app_nil_r | done]. Qed.

(** With enough fuel the windows start with the first [chunk_size]
    characters and give the text back once the overlaps are dropped. *)
Lemma chunk_go_rejoin chunk_size overlap fuel :
  overlap < chunk_size →
  ∀ text, 0 < len text ≤ fuel →
    ∃ rest,
      chunk_go fuel chunk_size overlap text = take chunk_size text :: rest ∧
      take chunk_size text +:+ join "" (drop overlap <$> rest) = text.
Proof.
  intros Hov. induction fuel as [|fuel IH]; intros text Hlen; [lia|].
  simpl. destruct (decide (len text ≤ chunk_size)) as [Hshort|Hlong].
  - exists []. rw take_all //. by rw /= app_nil_r.
  - destruct (IH (drop (chunk_size - overlap) text)) as (rest & Hgo & Hjoin).
    { rw len_drop. lia. }
    eexists. split; [by rw Hgo|].
    rw fmap_cons join_empty_cons.
    rw -(drop_app overlap); [|rw len_take len_drop; lia].
    rw Hjoin drop_drop.
    replace (chunk_size - overlap + overlap) with chunk_size by lia.
    apply take_drop.
Qed.

Lemma chunk_go_bounded chunk_size overlap fuel :
  ∀ text, Forall (λ c, len c ≤ chunk_size) (chunk_go fuel chunk_size overlap text).
Proof.
  induction fuel as [|fuel IH]; intros text; simpl; [done|].
  destruct (decide (len text ≤ chunk_size)); [by repeat constructor|].
  constructor; [rw len_take; lia | apply IH].
Qed.

(** C9: for every text and every chunk size and overlap with the
    overlap smaller than the chunk size, joining the chunks after
    dropping the first [overlap] characters of every chunk but the first
    gives the text back; each chunk has at most [chunk_size]
    characters. *)
Theorem chunk_rejoin (chunk_size overlap : nat) (text : string) :
  overlap < chunk_size →
  rejoin overlap (chunk chunk_size overlap text) = text ∧
  Forall (λ c, len c ≤ chunk_size) (chunk chunk_size overlap text).
Proof.
  intros Hov. unfold chunk. destruct text as [|c text]; [done|]. split.
  - destruct (chunk_go_rejoin chunk_size overlap (len (String c text)) Hov
                (String c text)) as (rest & -> & Hjoin); [simpl; lia|].
    exact Hjoin.
  - apply chunk_go_bounded.
Qed.

(** Windows of four characters that share one. *)
Lemma chunk_rejoin_witness :
  1 < 4 ∧
  chunk 4 1 "abcdefghij" = ["abcd"; "defg"; "ghij"] ∧
  rejoin 1 (chunk 4 1 "abcdefghij") = "abcdefghij".
Proof.
  split; [lia|]. split; [reflexivity|].
  apply (chunk_rejoin 4 1 "abcdefghij"). lia.
Defined.

End ChunkerFacts.

(** ** More facts about the string operations *)

Module PyTextFacts.
Import PyStr PyStrFacts PyText.

Lemma startswith_self p r : startswith p (p +:+ r) = true.
Proof.
  induction p as [|a p IH]; [done|]. rw app_cons /=. by rw decide_True.
Qed.

Lemma find_self p r : find p (p +:+ r) = Some 0.
Proof.
  destruct (p +:+ r) eqn:E; simpl; rw -E startswith_self //.
Qed.

Lemma take_app_len s t : take (len s) (s +:+ t) = s.
Proof. induction s as [|a s IH]; [by destruct t|]. by rw app_cons /= IH. Qed.

Lemma drop_app_len s t : drop (len s) (s +:+ t) = t.
Proof. induction s as [|a s IH]; [by destruct t|]. by rw app_cons /= IH. Qed.

Lemma contains_char_cons c a s :
  contains (String c "") (String a s) = false →
  c ≠ a ∧ contains (String c "") s = false.
Proof.
  simpl. destruct (decide (c = a)) as [->|Hne]; [done|]. by intros H.
Qed.

(** A separator that starts with [c] is not found inside a text without
    [c]: the search goes on behind that text. *)
Lemma find_app_free c sep s t :
  contains (String c "") s = false →
  find (String c sep) (s +:+ t) = (λ i, len s + i) <$> find (String c sep) t.
Proof.
  induction s as [|a s IH]; intros H.
  - rw app_nil_l. by destruct (find (String c sep) t).
  - apply contains_char_cons in H as [Hne Hs].
    rw app_cons. cbn [find startswith]. rw decide_False //. rw (IH Hs).
    by destruct (find (String c sep) t).
Qed.

Lemma find_free c sep s :
  contains (String c "") s = false → find (String c sep) s = None.
Proof.
  intros H. rw -(app_nil_r s) (find_app_free c sep s "" H). done.
Qed.

Lemma find_None_nonempty sep s : find sep s = None → sep ≠ "".
Proof. intros H ->. by destruct s. Qed.

Lemma find_drop_None sep s n : find sep s = None → find sep (drop n s) = None.
Proof.
  revert n; induction s as [|a s IH]; intros [|n] H; try done.
  simpl in *. apply IH. destruct (startswith sep (String a s)); [done|].
  by destruct (find sep s).
Qed.

Lemma startswith_take p n s : startswith p (take n s) = true → startswith p s = true.
Proof.
  revert n s; induction p as [|a p IH]; intros n s; [done|].
  destruct n as [|n], s as [|b s]; simpl; try done.
  destruct (decide (a = b)); [apply IH | done].
Qed.

Lemma find_take_None sep s n : find sep s = None → find sep (take n s) = None.
Proof.
  intros H. pose proof (find_None_nonempty _ _ H) as Hsep.
  revert n H; induction s as [|a s IH]; intros n H.
  - destruct n; simpl; by rw startswith_empty.
  - destruct n as [|n]; [simpl; by rw startswith_empty|].
    simpl in H. destruct (startswith sep (String a s)) eqn:Hp; [done|].
    destruct (find sep s) eqn:Hf; [done|].
    cbn [take find].
    destruct (startswith sep (String a (take n s))) eqn:Hq.
    + apply (startswith_take sep (S n) (String a s)) in Hq. congruence.
    + by rw IH.
Qed.




Lemma rstrip_idem s : rstrip (rstrip s) = rstrip s.
Proof.
  induction s as [|a s IH]; [done|]. simpl.
  destruct (rstrip s) as [|b r] eqn:E.
  - destruct (isspace a) eqn:Ha; [done|]. simpl. by rw Ha.
  - change (rstrip (String a (String b r)))
      with (match rstrip (String b r) with
            | EmptyString => if isspace a then EmptyString else String a EmptyString
            | String _ _ as r0 => String a r0
            end).
    by rw IH.
Qed.

Lemma lstrip_rstrip_lstrip s : lstrip (rstrip (lstrip s)) = rstrip (lstrip s).
Proof.
  induction s as [|a s IH]; [done|]. simpl.
  destruct (isspace a) eqn:Ha; [done|]. simpl.
  destruct (rstrip s) as [|b r]; rw /= ?Ha /= ?Ha //.
Qed.

Lemma strip_idem s : strip (strip s) = strip s.
Proof. unfold strip. by rw lstrip_rstrip_lstrip rstrip_idem. Qed.

Lemma split_go_nonempty sep s : ∀ k, split_go sep k s ≠ [].
Proof.
  induction s as [|a s IH]; intros k; [done|]. simpl.
  destruct k; [|apply IH].
  destruct (startswith sep (String a s)); [done|].
  by destruct (split_go sep 0 s).
Qed.

Lemma join_cons_cons sep p q pieces :
  join sep (p :: q :: pieces) = p +:+ sep +:+ join sep (q :: pieces).
Proof. done. Qed.

Lemma split_go_char_cons a c s :
  split_go (String a "") 0 (String c s)
  = if decide (a = c) then "" :: split_go (String a "") 0 s
    else match split_go (String a "") 0 s with
         | p :: ps => String c p :: ps
         | [] => [String c ""]
         end.
Proof. simpl. by destruct (decide (a = c)). Qed.

(** Replacing one character by one character changes the text character
    by character. *)
Lemma replace_char a b s :
  replace (String a "") (String b "") s = translate a b s.
Proof.
  unfold replace, split. induction s as [|c s IH]; [done|].
  rw split_go_char_cons.
  pose proof (split_go_nonempty (String a "") s 0) as Hne.
  destruct (split_go (String a "") 0 s) as [|p ps] eqn:E; [done|].
  cbn [translate]. destruct (decide (a = c)) as [->|Hac].
  - rw decide_True // join_cons_cons app_nil_l app_cons app_nil_l. by rw IH.
  - rw decide_False; [|congruence]. rw -IH.
    destruct ps; [done|]. by rw !join_cons_cons app_cons.
Qed.

Lemma translate_len a b s : len (translate a b s) = len s.
Proof. induction s as [|c s IH]; [done|]. by rw /= IH. Qed.

Lemma translate_free a b s : a ≠ b → contains (String a "") (translate a b s) = false.
Proof.
  intros Hab. induction s as [|c s IH]; [done|]. cbn [translate].
  destruct (decide (c = a)) as [->|Hca]; cbn [contains startswith].
  - destruct (decide (a = b)); [done | exact IH].
  - destruct (decide (a = c)); [congruence | exact IH].
Qed.

Lemma translate_id a b s : contains (String a "") s = false → translate a b s = s.
Proof.
  induction s as [|c s IH]; [done|]. intros [Hne Hs]%contains_char_cons.
  simpl. rw decide_False; [|congruence]. by rw IH.
Qed.

End PyTextFacts.

(** ** More on the structured-response parser *)

Module ParserMore.
Import PyStr PyStrFacts PyText PyTextFacts Auditor ParseSpec ParserFacts.

(** The search for one marker passes over another marker. *)
Ltac pass_marker :=
  intros x; rw !app_cons app_nil_l; cbn; by destruct (find _ x).

Lemma over_TH_ST x :
  find "**THINKING**:" ("**STATUS**:" +:+ x) = (λ i, 11 + i) <$> find "**THINKING**:" x.
Proof. revert x. pass_marker. Qed.

Lemma over_TH_RA x :
  find "**THINKING**:" ("**RATIONALE**:" +:+ x) = (λ i, 14 + i) <$> find "**THINKING**:" x.
Proof. revert x. pass_marker. Qed.

Lemma over_TH_EV x :
  find "**THINKING**:" ("**EVIDENCE CITATION**:" +:+ x) = (λ i, 22 + i) <$> find "**THINKING**:" x.
Proof. revert x. pass_marker. Qed.

Lemma over_ST_TH x :
  find "**STATUS**:" ("**THINKING**:" +:+ x) = (λ i, 13 + i) <$> find "**STATUS**:" x.
Proof. revert x. pass_marker. Qed.

Lemma over_ST_RA x :
  find "**STATUS**:" ("**RATIONALE**:" +:+ x) = (λ i, 14 + i) <$> find "**STATUS**:" x.
Proof. revert x. pass_marker. Qed.

Lemma over_ST_EV x :
  find "**STATUS**:" ("**EVIDENCE CITATION**:" +:+ x) = (λ i, 22 + i) <$> find "**STATUS**:" x.
Proof. revert x. pass_marker. Qed.

Lemma over_RA_TH x :
  find "**RATIONALE**:" ("**THINKING**:" +:+ x) = (λ i, 13 + i) <$> find "**RATIONALE**:" x.
Proof. revert x. pass_marker. Qed.

Lemma over_RA_ST x :
  find "**RATIONALE**:" ("**STATUS**:" +:+ x) = (λ i, 11 + i) <$> find "**RATIONALE**:" x.
Proof. revert x. pass_marker. Qed.

Lemma over_RA_EV x :
  find "**RATIONALE**:" ("**EVIDENCE CITATION**:" +:+ x) = (λ i, 22 + i) <$> find "**RATIONALE**:" x.
Proof. revert x. pass_marker. Qed.

Lemma over_EV_TH x :
  find "**EVIDENCE CITATION**:" ("**THINKING**:" +:+ x) = (λ i, 13 + i) <$> find "**EVIDENCE CITATION**:" x.
Proof. revert x. pass_marker. Qed.

Lemma over_EV_ST x :
  find "**EVIDENCE CITATION**:" ("**STATUS**:" +:+ x) = (λ i, 11 + i) <$> find "**EVIDENCE CITATION**:" x.
Proof. revert x. pass_marker. Qed.

Lemma over_EV_RA x :
  find "**EVIDENCE CITATION**:" ("**RATIONALE**:" +:+ x) = (λ i, 14 + i) <$> find "**EVIDENCE CITATION**:" x.
Proof. revert x. pass_marker. Qed.

(** One rewriting step of a search through a response made of marker-free
    texts and markers. *)
Ltac find_step :=
  first
    [ rw find_self
    | rw over_TH_ST | rw over_TH_RA | rw over_TH_EV
    | rw over_ST_TH | rw over_ST_RA | rw over_ST_EV
    | rw over_RA_TH | rw over_RA_ST | rw over_RA_EV
    | rw over_EV_TH | rw over_EV_ST | rw over_EV_RA
    | rw find_app_free; [|assumption]
    | rw find_free; [|assumption] ].

Ltac find_all := repeat find_step; cbn [fmap option_fmap option_map].

Lemma section_between M N dflt T P a R :
  T = P +:+ M +:+ a +:+ N +:+ R →
  find M T = Some (len P) →
  find M (a +:+ N +:+ R) = None →
  find N (a +:+ N +:+ R) = Some (len a) →
  section_value M (Some N) dflt T = strip a.
Proof.
  intros HT HM Hagain HN. unfold section_value, text_between, after, before.
  rw HM.
  assert (drop (len P + len M) T = a +:+ N +:+ R) as ->.
  { by rw HT -app_assoc -len_app drop_app_len. }
  by rw Hagain HN take_app_len.
Qed.

Lemma section_last M dflt T P d :
  T = P +:+ M +:+ d →
  find M T = Some (len P) →
  find M d = None →
  section_value M None dflt T = strip d.
Proof.
  intros HT HM Hagain. unfold section_value, text_between, after, before.
  rw HM.
  assert (drop (len P + len M) T = d) as ->.
  { by rw HT -app_assoc -len_app drop_app_len. }
  by rw Hagain.
Qed.

(** X1: on a response that has the four markers once each, in order, with
    texts free of asterisks before, between and after them, the four
    sections are the texts between the markers, stripped; what stands
    before the first marker is ignored. *)
Theorem parse_ordered_response (pre a b c d : string) :
  contains "*" pre = false → contains "*" a = false → contains "*" b = false →
  contains "*" c = false → contains "*" d = false →
  let response :=
    pre +:+ "**THINKING**:" +:+ a +:+ "**STATUS**:" +:+ b +:+
    "**RATIONALE**:" +:+ c +:+ "**EVIDENCE CITATION**:" +:+ d in
  _parse_structured_response response !! "thinking" = Some (strip a) ∧
  _parse_structured_response response !! "status" = Some (strip b) ∧
  _parse_structured_response response !! "rationale" = Some (strip c) ∧
  _parse_structured_response response !! "citation" = Some (strip d).
Proof.
  intros Hpre Ha Hb Hc Hd response.
  destruct (parsed_lookup response) as (-> & -> & -> & ->).
  unfold response. repeat split; f_equal.
  - eapply (section_between _ _ _ _ pre a); [done|..]; find_all;
      [f_equal; lia | done | f_equal; lia].
  - eapply (section_between _ _ _ _ (pre +:+ "**THINKING**:" +:+ a) b);
      [by rw !app_assoc|..]; find_all; rw ?len_app /=; [f_equal; lia | done | f_equal; lia].
  - eapply (section_between _ _ _ _
             (pre +:+ "**THINKING**:" +:+ a +:+ "**STATUS**:" +:+ b) c);
      [by rw !app_assoc|..]; find_all; rw ?len_app /=; [f_equal; lia | done | f_equal; lia].
  - eapply (section_last _ _ _
             (pre +:+ "**THINKING**:" +:+ a +:+ "**STATUS**:" +:+ b +:+
              "**RATIONALE**:" +:+ c) d);
      [by rw !app_assoc|..]; find_all; rw ?len_app /=; [f_equal; lia | done].
Qed.

(** A response with a preamble and line feeds around the sections. *)
Lemma parse_ordered_response_witness :
  _parse_structured_response
    ("Here is my audit." +:+ NL +:+ "**THINKING**:" +:+ " The policy names MFA." +:+ NL +:+
     "**STATUS**:" +:+ " Compliant" +:+ NL +:+ "**RATIONALE**:" +:+ " Section 2 requires it." +:+ NL +:+
     "**EVIDENCE CITATION**:" +:+ " [Source: a.pdf]" +:+ NL)
    !! "status" = Some "Compliant".
Proof.
  destruct (parse_ordered_response ("Here is my audit." +:+ NL)
              (" The policy names MFA." +:+ NL) (" Compliant" +:+ NL)
              (" Section 2 requires it." +:+ NL) (" [Source: a.pdf]" +:+ NL))
    as (_ & Hstatus & _); [reflexivity..|].
  exact Hstatus.
Defined.

Lemma before_not_found sep s : find sep s = None → before sep s = s.
Proof. unfold before. by intros ->. Qed.

(** X2: when the marker of the following section does not occur in the
    response, a section is not cut at all: it holds everything after its
    own marker (up to a repetition of that marker), the markers and texts
    of later sections included. *)
Theorem section_runs_on_without_next_marker (text : string) :
  (contains "**STATUS**:" text = false →
   _parse_structured_response text !! "thinking"
   = Some (section_value "**THINKING**:" None "No thinking provided." text)) ∧
  (contains "**RATIONALE**:" text = false →
   _parse_structured_response text !! "status"
   = Some (section_value "**STATUS**:" None "Unknown" text)) ∧
  (contains "**EVIDENCE CITATION**:" text = false →
   _parse_structured_response text !! "rationale"
   = Some (section_value "**RATIONALE**:" None "" text)).
Proof.
  destruct (parsed_lookup text) as (-> & -> & -> & _).
  assert (∀ M N dflt, contains N text = false →
            section_value M (Some N) dflt text = section_value M None dflt text) as H.
  { intros M N dflt HN. rw contains_find in HN.
    destruct (find N text) eqn:Hf; [done|].
    unfold section_value, text_between, after.
    destruct (find M text) as [i|]; [|done].
    f_equal. apply before_not_found. unfold before.
    destruct (find M (drop (i + len M) text)).
    - by apply find_take_None, find_drop_None.
    - by apply find_drop_None. }
  repeat split; intros Hc; by rw H.
Qed.

(** A response without the status marker: the thinking section takes the
    rationale with it. *)
Lemma section_runs_on_without_next_marker_witness :
  contains "**STATUS**:" "**THINKING**: plan **RATIONALE**: because" = false ∧
  _parse_structured_response "**THINKING**: plan **RATIONALE**: because" !! "thinking"
  = Some "plan **RATIONALE**: because".
Proof.
  split; [reflexivity|].
  destruct (section_runs_on_without_next_marker
              "**THINKING**: plan **RATIONALE**: because") as (H & _).
  rw H; reflexivity.
Defined.

Lemma parsed_dom (text : string) :
  dom (_parse_structured_response text)
  = ({["thinking"; "status"; "rationale"; "citation"]} : gset string).
Proof.
  unfold _parse_structured_response. rw parse_run_unfold.
  unfold default_sections.
  destruct (find "**THINKING**:" text), (find "**STATUS**:" text),
    (find "**RATIONALE**:" text), (find "**EVIDENCE CITATION**:" text);
    simpl; rw ?dom_insert_L dom_empty_L; set_solver.
Qed.

Lemma section_value_stripped M N dflt text :
  strip dflt = dflt → strip (section_value M N dflt text) = section_value M N dflt text.
Proof.
  intros Hd. unfold section_value. destruct (find M text); [apply strip_idem | done].
Qed.

(** X3: every value of the parsed dict, default or not, is free of white
    space at both ends: stripping it again changes nothing. *)
Theorem parsed_values_stripped (text key value : string) :
  _parse_structured_response text !! key = Some value → strip value = value.
Proof.
  intros H. assert (key ∈ dom (_parse_structured_response text)) as Hk
    by (apply elem_of_dom; eauto).
  rw parsed_dom in Hk. destruct (parsed_lookup text) as (Ht & Hs & Hr & Hc).
  assert (key = "thinking" ∨ key = "status" ∨ key = "rationale" ∨ key = "citation")
    as [->|[->|[->| ->]]].
  { revert Hk. rw !elem_of_union !elem_of_singleton. tauto. }
  - rw Ht in H. injection H as <-. by apply section_value_stripped.
  - rw Hs in H. injection H as <-. by apply section_value_stripped.
  - rw Hr in H. injection H as <-. by apply section_value_stripped.
  - rw Hc in H. injection H as <-. by apply section_value_stripped.
Qed.

Lemma parsed_values_stripped_witness :
  _parse_structured_response ("**STATUS**:   Partial " +:+ NL) !! "status" = Some "Partial" ∧
  strip "Partial" = "Partial".
Proof.
  assert (_parse_structured_response ("**STATUS**:   Partial " +:+ NL) !! "status"
          = Some "Partial") as H by reflexivity.
  split; [exact H|]. exact (parsed_values_stripped _ _ _ H).
Defined.

(** X4: a response in which none of the four markers occurs, the empty
    response included, parses to the four defaults. *)
Theorem parse_without_markers (text : string) :
  contains "**THINKING**:" text = false → contains "**STATUS**:" text = false →
  contains "**RATIONALE**:" text = false → contains "**EVIDENCE CITATION**:" text = false →
  _parse_structured_response text = default_sections ∧
  _parse_structured_response text !! "status" = Some "Unknown" ∧
  _parse_structured_response text !! "thinking" = Some "No thinking provided." ∧
  _parse_structured_response text !! "rationale" = Some "" ∧
  _parse_structured_response text !! "citation" = Some "".
Proof.
  rw !contains_find. intros H1 H2 H3 H4.
  assert (_parse_structured_response text = default_sections) as ->.
  { unfold _parse_structured_response. rw parse_run_unfold.
    destruct (find "**THINKING**:" text), (find "**STATUS**:" text),
      (find "**RATIONALE**:" text), (find "**EVIDENCE CITATION**:" text); done. }
  done.
Qed.

Lemma parse_without_markers_witness :
  _parse_structured_response "I cannot answer that." = default_sections.
Proof. by apply parse_without_markers. Defined.

End ParserMore.

(** ** More on the audit call *)

Module AuditorMore.
Import PyStr PyStrFacts PyText PyTextFacts Auditor ParseSpec ParserFacts AuditorFacts.

(** X5: a chunk is rendered on two lines: the header with its source, then
    its content with every line feed turned into a space, so the content
    keeps its length and has no line feed left; a content without line
    feed is rendered as it is.  No chunk gives the empty context. *)
Theorem format_doc_single_line (doc : Document) :
  format_doc doc
  = "[Source: " +:+ default "Unknown Source" (metadata doc !! "source_file") +:+ "]" +:+ NL +:+
    translate (Ascii.ascii_of_nat 10) " " (page_content doc) +:+ NL ∧
  len (translate (Ascii.ascii_of_nat 10) " " (page_content doc)) = len (page_content doc) ∧
  contains NL (translate (Ascii.ascii_of_nat 10) " " (page_content doc)) = false ∧
  (contains NL (page_content doc) = false →
   translate (Ascii.ascii_of_nat 10) " " (page_content doc) = page_content doc) ∧
  format_docs [] = "" ∧
  format_docs [doc] = format_doc doc.
Proof.
  split; [unfold format_doc; by rw -replace_char|].
  split; [apply translate_len|].
  split; [by apply translate_free|].
  split; [apply translate_id | done].
Qed.

Lemma all_strings_fmap_Some strs : all_strings (Some <$> strs) = Some strs.
Proof.
  unfold all_strings. induction strs as [|x strs IH]; [done|].
  rw fmap_cons. cbn. cbn in IH. by rw IH.
Qed.

Lemma all_strings_is_Some l :
  is_Some (all_strings l) ↔ Forall is_Some l.
Proof.
  split.
  - intros [strs ->%all_strings_Some]. apply Forall_fmap, Forall_true. by eexists.
  - intros H. destruct (all_strings l) eqn:E; [by eexists|].
    exfalso. induction H as [|x l [y ->] _ IH]; [done|].
    unfold all_strings in *. cbn in E.
    destruct (mapM id l); [done | by apply IH].
Qed.

Lemma unique_sources_all docs :
  Forall is_Some (unique_sources docs)
  ↔ Forall (λ d, is_Some (metadata d !! "source_file")) docs.
Proof.
  rw !Forall_forall. split.
  - intros H d Hd. apply H, elem_of_unique_sources. by exists d.
  - intros H o (d & Hd & <-)%elem_of_unique_sources. by apply H.
Qed.

(** X6: the audit call ends in its normal result exactly when the
    retriever returns, every chunk it returns has a ["source_file"] entry,
    the prompt is filled and the model answers; in every other case it
    ends in the error result. *)
Theorem run_audit_succeeds_iff env question retriever :
  (∃ res, run_audit_try env question retriever = Ok res)
  ↔ ∃ docs prompt response_text,
      retriever question = Ok docs ∧
      Forall (λ d, is_Some (metadata d !! "source_file")) docs ∧
      prompt_format env (format_docs docs) question = Ok prompt ∧
      llm_invoke env prompt = Ok response_text.
Proof.
  rw run_audit_try_steps. split.
  - intros [res H].
    destruct (retriever question) as [docs|] eqn:H1; [simpl in H|done].
    destruct (prompt_format env (format_docs docs) question) as [prompt|] eqn:H2;
      [simpl in H|done].
    destruct (llm_invoke env prompt) as [response|] eqn:H3; [simpl in H|done].
    exists docs, prompt, response. split; [done|]. split; [|done].
    apply unique_sources_all, all_strings_is_Some. unfold validate_sources in H.
    destruct (all_strings (unique_sources docs)); [by eexists | done].
  - intros (docs & prompt & response & -> & Hall & H2 & H3). simpl. rw H2 /= H3 /=.
    apply unique_sources_all, all_strings_is_Some in Hall as [strs Hs].
    unfold validate_sources. rw Hs /=. by eexists.
Qed.

(** X7: on every path the result echoes the question, lists no source
    twice, and lists only files of chunks the retriever returned for that
    question. *)
Theorem run_audit_result_invariants env question retriever :
  Auditor.question (run_audit env question retriever) = question ∧
  NoDup (sources (run_audit env question retriever)) ∧
  ∀ s, s ∈ sources (run_audit env question retriever) →
       ∃ docs d, retriever question = Ok docs ∧ d ∈ docs ∧
                 metadata d !! "source_file" = Some s.
Proof.
  unfold run_audit. rw run_audit_try_steps.
  destruct (retriever question) as [docs|]; [simpl|by repeat split; [constructor|set_solver]].
  destruct (prompt_format env (format_docs docs) question) as [prompt|];
    [simpl|by repeat split; [constructor|set_solver]].
  destruct (llm_invoke env prompt) as [response|];
    [simpl|by repeat split; [constructor|set_solver]].
  unfold validate_sources.
  destruct (all_strings (unique_sources docs)) as [strs|] eqn:Hs;
    [simpl|by repeat split; [constructor|set_solver]].
  apply all_strings_Some in Hs. split; [done|]. split.
  - eapply (NoDup_fmap_1 Some). rw -Hs. unfold unique_sources. apply NoDup_elements.
  - intros s Hin. exists docs.
    assert (Some s ∈ unique_sources docs) as (d & Hd & Hm)%elem_of_unique_sources
      by (rw Hs; by apply list_elem_of_fmap_2).
    by exists d.
Qed.

End AuditorMore.

(** ** More on ingestion *)

Module IngestionMore.
Import PyStr PyStrFacts PyText PyTextFacts Ingestion IngestionFacts.

Lemma stamp_source title category name chunk :
  metadata (stamp title category name chunk) !! "source_file" = Some name ∧
  metadata (stamp title category name chunk) !! "category" = Some category ∧
  metadata (stamp title category name chunk) !! "doc_title" = Some title.
Proof. unfold stamp. simpl. repeat split; by simplify_map_eq. Qed.

Lemma unique_sources_stamped title category name chunks :
  chunks ≠ [] →
  Auditor.unique_sources (stamp title category name <$> chunks) = [Some name].
Proof.
  intros Hne. unfold Auditor.unique_sources.
  assert (list_to_set ((λ d, metadata d !! "source_file")
                         <$> (stamp title category name <$> chunks))
          = ({[Some name]} : gset (option string))) as ->.
  { apply set_eq. intros o. rw elem_of_list_to_set elem_of_singleton.
    rw -list_fmap_compose list_elem_of_fmap. split.
    - intros (c & -> & _). simpl. apply stamp_source.
    - intros ->. destruct chunks as [|c chunks]; [done|].
      exists c. split; [symmetry; apply stamp_source | by left]. }
  apply elements_singleton.
Qed.

(** X8: an audit whose retriever returns chunks of one ingested file, as
    [ingest_pdf] stamps them, never fails on its sources: when the prompt
    is filled and the model answers, the result lists exactly that file,
    once, however many chunks were retrieved. *)
Theorem audit_over_ingested_chunks (env : Auditor.Env) (question : string)
    (retriever : Auditor.Retriever) (title category name : string)
    (chunks : list Document) (prompt response_text : string) :
  chunks ≠ [] →
  retriever question = Ok (stamp title category name <$> chunks) →
  Auditor.prompt_format env
    (Auditor.format_docs (stamp title category name <$> chunks)) question = Ok prompt →
  Auditor.llm_invoke env prompt = Ok response_text →
  Auditor.sources (Auditor.run_audit env question retriever) = [name] ∧
  Auditor.status (Auditor.run_audit env question retriever)
  = ParseSpec.section_value "**STATUS**:" (Some "**RATIONALE**:") "Unknown" response_text.
Proof.
  intros Hne H1 H2 H3. unfold Auditor.run_audit.
  rw AuditorFacts.run_audit_try_steps H1 /= H2 /= H3 /=.
  unfold Auditor.validate_sources. rw (unique_sources_stamped _ _ _ _ Hne). done.
Qed.

(** Three chunks of one file, with the banner and metadata of the
    scenario's tagger. *)
Lemma audit_over_ingested_chunks_witness :
  Auditor.sources
    (Auditor.run_audit Scenario.audit_env "Is MFA required?"
       (λ _, Ok (stamp "Unknown Policy" "General" "a.pdf"
                   <$> [mkDocument "x" ∅; mkDocument "y" ∅; mkDocument "z" ∅])))
  = ["a.pdf"].
Proof.
  refine (proj1 (audit_over_ingested_chunks Scenario.audit_env "Is MFA required?" _
                   "Unknown Policy" "General" "a.pdf"
                   [mkDocument "x" ∅; mkDocument "y" ∅; mkDocument "z" ∅] _ _ _ _ _ _));
    [done | reflexivity | reflexivity | reflexivity].
Defined.






Lemma filter_none {A} (P : A → Prop) `{∀ x, Decision (P x)} (l : list A) :
  (∀ x, x ∈ l → ¬ P x) → filter P l = [].
Proof.
  induction l as [|x l IH]; intros Hl; [done|].
  rw filter_cons decide_False; [|apply Hl; by left].
  apply IH. intros y Hy. apply Hl. by right.
Qed.

(** X10: an archive that is opened and extracted but has no PDF entry,
    only names without the [.pdf] ending or under [__MACOSX], gives 0 and
    leaves the store as it is: no entry is loaded. *)
Theorem ingest_zip_without_pdf (env : Env) (store : Ingestor) (zip_path : string)
    (names : list string) :
  zip_namelist env zip_path = Ok names →
  zip_extractall env zip_path (tmp_dir env) = Ok () →
  (∀ f, f ∈ names →
     endswith ".pdf" (lower f) = false ∨ startswith "__MACOSX" f = true) →
  ingest_zip env store zip_path = (store, Ok 0).
Proof.
  intros H1 H2 Hnames. unfold ingest_zip. rw H1 H2.
  rw (filter_none (λ f, is_pdf_entry f = true)) //.
  intros f Hf. unfold is_pdf_entry. destruct (Hnames f Hf) as [-> | ->]; [done|].
  by destruct (endswith ".pdf" (lower f)).
Qed.

Lemma ingest_zip_without_pdf_witness :
  ingest_zip
    (mkEnv (λ t, Ok t) (λ _ p, Ok p) (λ _, Ok JNull) type_name (λ _, Ok [])
       (λ _ _ pages, Ok pages)
       (λ store chunks, (store ++ (Scenario.store_chunk <$> chunks), Ok ()))
       (λ _, Ok ["notes.txt"; "__MACOSX/._a.pdf"; "pdf"]) (λ _ _, Ok ()) "/tmp/t")
    (mkIngestor [] 0) "docs.zip"
  = (mkIngestor [] 0, Ok 0).
Proof.
  apply (ingest_zip_without_pdf _ (mkIngestor [] 0) "docs.zip"
           ["notes.txt"; "__MACOSX/._a.pdf"; "pdf"]);
    [reflexivity | reflexivity |].
  intros f. rw !elem_of_cons elem_of_nil.
  intros [->|[->|[->|[]]]]; [by left | by right | by left].
Defined.

(** The body of the chunk loop on a title and a category that are
    strings is [stamp], read as a chunk with decoded values. *)
Lemma stamp_value_strings env title category name chunk :
  stamp_value env (JString title) (JString category) name chunk
  = mkTaggedChunk (page_content (stamp title category name chunk))
      (JString <$> metadata (stamp title category name chunk)).
Proof. unfold stamp_value, stamp. simpl. by rw !fmap_insert. Qed.

Lemma stamp_value_metadata env title category name chunk :
  tagged_metadata (stamp_value env title category name chunk) !! "source_file"
    = Some (JString name) ∧
  tagged_metadata (stamp_value env title category name chunk) !! "category"
    = Some category ∧
  tagged_metadata (stamp_value env title category name chunk) !! "doc_title"
    = Some title.
Proof. unfold stamp_value. simpl. repeat split; by simplify_map_eq. Qed.

(** X11: nothing guards against ingesting a document twice.  When the
    loader and the splitter give the same pages and chunks for the file,
    the tagger's answer is a JSON object at both calls, with the same
    title and category, and the store accepts what it is given, a second
    [ingest_pdf] of the same file hands the store the same stamped chunks
    as the first, whatever the store already holds, and returns the same
    count: the store is asked to add them once more. *)
Theorem ingest_pdf_twice_duplicates (env : Env) (ingestor : Ingestor)
    (file_path original_name : string) (first_page : Document)
    (other_pages chunks : list Document) (entries entries' : list (string * Json))
    (keep : list TaggedChunk → list Document) :
  (∀ s c, vs_add env s c = (s ++ keep c, Ok ())) →
  pdf_load env file_path = Ok (first_page :: other_pages) →
  split_documents env CHUNK_SIZE CHUNK_OVERLAP (first_page :: other_pages) = Ok chunks →
  _get_actual_metadata env (tagger_calls ingestor) (page_content first_page)
    = JObject entries →
  _get_actual_metadata env
    (tagger_calls ingestor
     + length (tagger_prompts env (tagger_calls ingestor) (page_content first_page)))
    (page_content first_page) = JObject entries' →
  dict_get "formal_title" entries' = dict_get "formal_title" entries →
  dict_get "category" entries' = dict_get "category" entries →
  ∃ new,
    length new = length chunks ∧
    (ingest_pdf env ingestor file_path original_name).2 = length chunks ∧
    vectorstore (ingest_pdf env ingestor file_path original_name).1
      = vectorstore ingestor ++ keep new ∧
    (ingest_pdf env (ingest_pdf env ingestor file_path original_name).1
       file_path original_name).2 = length chunks ∧
    vectorstore
      (ingest_pdf env (ingest_pdf env ingestor file_path original_name).1
         file_path original_name).1
      = vectorstore ingestor ++ keep new ++ keep new.
Proof.
  intros Hadd H1 H2 Hfirst Hsecond Ht Hc.
  exists (stamp_value env
            (default (JString original_name) (dict_get "formal_title" entries))
            (default (JString "General") (dict_get "category" entries))
            original_name <$> chunks).
  split; [by rw length_fmap|].
  rw (ingest_pdf_tagged _ ingestor _ _ _ _ H1). cbv zeta. rw Hfirst H2 Hadd.
  split; [done|]. split; [done|].
  rw (ingest_pdf_tagged _ _ _ _ _ _ H1). cbv zeta. cbn [tagger_calls vectorstore].
  rw Hsecond H2 Hadd Ht Hc. split; [done|]. cbn [fst vectorstore].
  by rw -(assoc_L (++)).
Qed.

(** The scenario with a tagger that answers: the second ingestion of
    [a.pdf] adds its chunk a second time. *)
Lemma ingest_pdf_twice_duplicates_witness :
  ∃ chunk,
    vectorstore
      (ingest_pdf Scenario.tagging_env (mkIngestor [] 0) "/tmp/tmpq1/a.pdf" "a.pdf").1
      = [chunk] ∧
    vectorstore
      (ingest_pdf Scenario.tagging_env
         (ingest_pdf Scenario.tagging_env (mkIngestor [] 0) "/tmp/tmpq1/a.pdf" "a.pdf").1
         "/tmp/tmpq1/a.pdf" "a.pdf").1
      = [chunk; chunk].
Proof.
  destruct (ingest_pdf_twice_duplicates Scenario.tagging_env (mkIngestor [] 0)
              "/tmp/tmpq1/a.pdf" "a.pdf"
              (mkDocument "Employees may work remotely." ∅) []
              [mkDocument "Employees may work remotely." ∅]
              [("formal_title", JString "Remote Work Policy")]
              [("formal_title", JString "Remote Work Policy")]
              (fmap Scenario.store_chunk))
    as (new & Hlen & _ & Hfirst & _ & Hsecond);
    [done | reflexivity | reflexivity | by vm_compute | by vm_compute | done | done |].
  destruct new as [|chunk [|]]; [done| |done].
  exists (Scenario.store_chunk chunk). split; [exact Hfirst | exact Hsecond].
Defined.

(** X12: when the tagger's answer is a JSON object, all the chunks one
    [ingest_pdf] hands to the store carry the same title and category,
    looked up once in that object (the file name and ["General"] where a
    key is missing), and the file name as ["source_file"]; their text is
    the chunk of the splitter behind the two banner lines; the call
    returns their number when the store takes them.  After an exception
    inside the tagger the title and category are ["Unknown Policy"] and
    ["General"]. *)
Theorem ingested_chunks_stamped (env : Env) (ingestor : Ingestor)
    (file_path original_name : string) (first_page : Document)
    (other_pages chunks : list Document) (entries : list (string * Json)) :
  pdf_load env file_path = Ok (first_page :: other_pages) →
  split_documents env CHUNK_SIZE CHUNK_OVERLAP (first_page :: other_pages) = Ok chunks →
  _get_actual_metadata env (tagger_calls ingestor) (page_content first_page)
    = JObject entries →
  ∃ title category handed,
    title = default (JString original_name) (dict_get "formal_title" entries) ∧
    category = default (JString "General") (dict_get "category" entries) ∧
    ingest_pdf env ingestor file_path original_name
    = (mkIngestor (vs_add env (vectorstore ingestor) handed).1
         (tagger_calls ingestor
          + length (tagger_prompts env (tagger_calls ingestor) (page_content first_page))),
       match (vs_add env (vectorstore ingestor) handed).2 with
       | Ok _ => length chunks
       | Raise _ => 0
       end) ∧
    Forall2 (λ d chunk,
               tagged_metadata d !! "source_file" = Some (JString original_name) ∧
               tagged_metadata d !! "doc_title" = Some title ∧
               tagged_metadata d !! "category" = Some category ∧
               tagged_content d
               = ("[[POLICY: " +:+ format_value env title +:+ "]]" +:+ NL +:+
                  "[[CATEGORY: " +:+ format_value env category +:+ "]]" +:+ NL)
                 +:+ page_content chunk)
            handed chunks ∧
    ((∃ e, (tagger_try env (tagger_calls ingestor) (page_content first_page)).2 = Raise e) →
     title = JString "Unknown Policy" ∧ category = JString "General").
Proof.
  intros H1 H2 Hobj.
  exists (default (JString original_name) (dict_get "formal_title" entries)),
    (default (JString "General") (dict_get "category" entries)),
    (stamp_value env
       (default (JString original_name) (dict_get "formal_title" entries))
       (default (JString "General") (dict_get "category" entries))
       original_name <$> chunks).
  split; [done|]. split; [done|]. split; [|split].
  - rw (ingest_pdf_tagged _ _ _ _ _ _ H1). cbv zeta. rw Hobj H2.
    by destruct (vs_add env _ _) as [store' [[]|]].
  - apply Forall2_fmap_l, Forall_Forall2_diag, Forall_true. intros chunk.
    destruct (stamp_value_metadata env
                (default (JString original_name) (dict_get "formal_title" entries))
                (default (JString "General") (dict_get "category" entries))
                original_name chunk) as (Hs & Hc & Ht).
    split; [done|]. split; [done|]. split; [done|].
    simpl. by rw !app_assoc.
  - intros [e He]. unfold _get_actual_metadata in Hobj. rw He in Hobj.
    simpl in Hobj. by injection Hobj as <-.
Qed.

Lemma ingested_chunks_stamped_witness :
  ∃ chunk,
    vectorstore
      (ingest_pdf Scenario.ingest_env (mkIngestor [] 0) "/tmp/tmpq1/a.pdf" "a.pdf").1
      = [chunk] ∧
    metadata chunk !! "doc_title" = Some "Unknown Policy" ∧
    metadata chunk !! "source_file" = Some "a.pdf".
Proof.
  destruct (ingested_chunks_stamped Scenario.ingest_env (mkIngestor [] 0)
              "/tmp/tmpq1/a.pdf" "a.pdf"
              (mkDocument "Employees may work remotely." ∅) []
              [mkDocument "Employees may work remotely." ∅]
              [("formal_title", JString "Unknown Policy"); ("category", JString "General")])
    as (title & category & handed & -> & -> & Hing & Hall & _);
    [reflexivity | reflexivity | reflexivity |].
  destruct handed as [|h [|]]; [by inversion Hall| |
    inversion Hall as [|???? _ Hrest]; inversion Hrest].
  inversion Hall as [|???? (Hs & Ht & _) _]. subst.
  exists (Scenario.store_chunk h). rw Hing. split; [reflexivity|].
  unfold Scenario.store_chunk. simpl. by rw !lookup_omap Hs Ht.
Defined.

End IngestionMore.

(** ** The parent-document ingestor *)

Module TrueCiteFacts.
Import PyStr PyStrFacts PyText PyTextFacts TrueCite.

Lemma rfind_char_last c s :
  match rfind_char c s with
  | Some i => contains (String c "") (drop (S i) s) = false
  | None => contains (String c "") s = false
  end.
Proof.
  induction s as [|a s IH]; [done|]. cbn [rfind_char].
  destruct (rfind_char c s) as [i|]; [exact IH|].
  destruct (decide (a = c)) as [->|Hne]; [exact IH|].
  cbn [contains startswith]. rw decide_False; [|congruence]. exact IH.
Qed.

Lemma rfind_char_at c s i :
  rfind_char c s = Some i → ∃ pre, take (S i) s = pre +:+ String c "".
Proof.
  revert i; induction s as [|a s IH]; intros i; [done|]. cbn [rfind_char].
  destruct (rfind_char c s) as [j|].
  - intros [= <-]. destruct (IH j eq_refl) as [pre Hpre].
    exists (String a pre). cbn [take] in *. by rw Hpre.
  - destruct (decide (a = c)) as [->|]; [|done]. intros [= <-]. by exists "".
Qed.

Lemma endswith_app s t : endswith t (s +:+ t) = true.
Proof.
  unfold endswith. rw len_app decide_True; [|lia].
  apply bool_decide_eq_true.
  replace (len s + len t - len t) with (len s) by lia. apply drop_app_len.
Qed.

Lemma rfind_char_free c s : contains (String c "") s = false → rfind_char c s = None.
Proof.
  induction s as [|a s IH]; [done|]. intros [Hne Hs]%contains_char_cons.
  cbn [rfind_char]. rw (IH Hs) decide_False; [|congruence]. done.
Qed.

(** X13: [os.path.basename], as [ingest_pdf] uses it for a missing source
    name, gives the end of the path behind its last slash: the result has
    no slash, the path is a directory part followed by it, and a path
    without slash is its own base name.  A source name that is [None] or
    empty is replaced by it; any other is kept. *)
Theorem source_name_fallback (file_path : string) :
  contains "/" (basename file_path) = false ∧
  (∃ dir, file_path = dir +:+ basename file_path ∧
          (dir = "" ∨ endswith "/" dir = true)) ∧
  (contains "/" file_path = false → basename file_path = file_path) ∧
  effective_source_name file_path None = basename file_path ∧
  effective_source_name file_path (Some "") = basename file_path ∧
  (∀ name, name ≠ "" → effective_source_name file_path (Some name) = name).
Proof.
  split; [|split; [|split; [|split; [done|split; [done|]]]]].
  - unfold basename. pose proof (rfind_char_last "/" file_path) as H.
    by destruct (rfind_char "/" file_path).
  - unfold basename. destruct (rfind_char "/" file_path) as [i|] eqn:E.
    + exists (take (S i) file_path). split; [by rw take_drop|]. right.
      destruct (rfind_char_at _ _ _ E) as [pre ->]. apply endswith_app.
    + exists "". split; [done | by left].
  - intros H. unfold basename. by rw rfind_char_free.
  - intros name Hname. unfold effective_source_name. by rw decide_False.
Qed.

Lemma zip_loop_total env zip_path files :
  ∀ store total,
    (zip_loop env zip_path store total files).2
    = total + sum_list (entry_pages env zip_path store files).
Proof.
  induction files as [|f rest IH]; intros store total; simpl; [lia|].
  destruct (zip_extract env zip_path f (tmp_dir env)) as [path|]; [|by rw IH].
  destruct (ingest_pdf env store path (Some f)) as [store' pages].
  destruct (remove_extracted env path); rw IH /=; lia.
Qed.

Lemma entry_pages_length env zip_path files :
  ∀ store, length (entry_pages env zip_path store files) = length files.
Proof.
  induction files as [|f rest IH]; intros store; simpl; [done|].
  destruct (zip_extract env zip_path f (tmp_dir env)) as [path|]; [|by rw /= IH].
  destruct (ingest_pdf env store path (Some f)) as [store' pages]. by rw /= IH.
Qed.

(** X14: this [ingest_zip] returns a number on every archive: 0, with the
    store untouched, when the archive cannot be opened; otherwise the sum,
    over all entries ending in [.pdf] (any case, [__MACOSX] entries
    included), of the pages each one added, where an entry that cannot be
    extracted adds 0 and the entries after it are still processed, and a
    failing removal of the extracted file changes nothing. *)
Theorem parent_ingest_zip_total (env : Env) (store : Store) (zip_path : string) :
  (∀ e, zip_namelist env zip_path = Raise e →
     ingest_zip env store zip_path = (store, 0)) ∧
  (∀ all_files, zip_namelist env zip_path = Ok all_files →
     (ingest_zip env store zip_path).2
     = sum_list (entry_pages env zip_path store
                   (filter (λ f, endswith ".pdf" (lower f) = true) all_files)) ∧
     length (entry_pages env zip_path store
               (filter (λ f, endswith ".pdf" (lower f) = true) all_files))
     = length (filter (λ f, endswith ".pdf" (lower f) = true) all_files)) ∧
  (∀ file_name rest total e,
     zip_extract env zip_path file_name (tmp_dir env) = Raise e →
     zip_loop env zip_path store total (file_name :: rest)
     = zip_loop env zip_path store total rest).
Proof.
  split; [|split].
  - intros e H. unfold ingest_zip. by rw H.
  - intros all_files H. unfold ingest_zip. rw H. split.
    + by rw zip_loop_total.
    + apply entry_pages_length.
  - intros f rest total e H. simpl. by rw H.
Qed.

(** The archive of the scenario: two pages from [a.pdf], nothing from
    the entry that cannot be extracted, nothing from the one that cannot
    be read, two pages from the [__MACOSX] entry. *)
Lemma parent_ingest_zip_total_witness :
  ingest_zip Scenario2.broken_zip_env [] "docs.zip" = ([], 0) ∧
  (ingest_zip Scenario2.parent_env [] "docs.zip").2 = 4 ∧
  entry_pages Scenario2.parent_env "docs.zip" []
    ["a.pdf"; "locked.pdf"; "bad.pdf"; "__MACOSX/._a.pdf"] = [2; 0; 0; 2].
Proof.
  destruct (parent_ingest_zip_total Scenario2.broken_zip_env [] "docs.zip") as (H0 & _).
  destruct (parent_ingest_zip_total Scenario2.parent_env [] "docs.zip") as (_ & Hsum & _).
  split; [apply (H0 (Exc "BadZipFile" "File is not a zip file")); reflexivity|].
  destruct (Hsum ["a.pdf"; "locked.pdf"; "bad.pdf"; "readme.md"; "__MACOSX/._a.pdf"] eq_refl)
    as [-> _].
  split; by vm_compute.
Defined.

(** X15: on a store that accepts every document, [ingest_pdf] returns the
    number of pages of the file and adds the pages themselves, each with
    ["source_file"] set to the source name in use and its other metadata
    and text unchanged; when the loader raises it returns 0 and adds
    nothing. *)
Theorem parent_ingest_pdf_pages (env : Env) (store : Store) (file_path : string)
    (source_name : option string) :
  (∀ s docs, add_documents env s docs = (s ++ docs, Ok ())) →
  (∀ pages, pdf_load env file_path = Ok pages →
     ingest_pdf env store file_path source_name
     = (store ++ (tag_source (effective_source_name file_path source_name) <$> pages),
        length pages) ∧
     Forall2 (λ d page,
                metadata d !! "source_file"
                = Some (effective_source_name file_path source_name) ∧
                page_content d = page_content page ∧
                ∀ key, key ≠ "source_file" → metadata d !! key = metadata page !! key)
       (tag_source (effective_source_name file_path source_name) <$> pages) pages) ∧
  (∀ e, pdf_load env file_path = Raise e →
     ingest_pdf env store file_path source_name = (store, 0)).
Proof.
  intros Hadd. split.
  - intros pages H. split.
    + unfold ingest_pdf, ingest_pdf_try. rw H Hadd /=. by rw length_fmap.
    + apply Forall2_fmap_l, Forall_Forall2_diag, Forall_true. intros page.
      unfold tag_source. simpl. split; [by simplify_map_eq|]. split; [done|].
      intros key Hkey. by rw lookup_insert_ne.
  - intros e H. unfold ingest_pdf, ingest_pdf_try. by rw H.
Qed.

Lemma parent_ingest_pdf_pages_witness :
  ingest_pdf Scenario2.parent_env [] "/tmp/tmpz7/a.pdf" None
  = ([mkDocument "page 1" {["source_file" := "a.pdf"]};
      mkDocument "page 2" {["source_file" := "a.pdf"]}], 2).
Proof.
  destruct (parent_ingest_pdf_pages Scenario2.parent_env [] "/tmp/tmpz7/a.pdf" None)
    as (Hok & _); [done|].
  destruct (Hok [mkDocument "page 1" ∅; mkDocument "page 2" ∅] eq_refl) as [-> _].
  by vm_compute.
Defined.

End TrueCiteFacts.

(** ** The upload endpoints *)

Module ApiFacts.
Import Main Api.

Lemma remove_saved temp_name (fs : gmap string string) upload :
  remove_if_exists (save_upload_file temp_name fs upload).1
    (save_upload_file temp_name fs upload).2
  = delete (temp_name upload) fs.
Proof.
  unfold remove_if_exists, save_upload_file. simpl.
  by rw lookup_insert_eq delete_insert_eq.
Qed.

(** X16: both upload endpoints delete the temporary copy of the upload
    on every path, after a success, after the 400 error, and after an
    exception of [ingest_zip] that the endpoint lets through: afterwards
    the temporary name is absent and every other file is as before, so
    with a fresh temporary name the files are exactly those of before.
    [ingest_policies] answers with the count of [ingest_zip] or raises
    what [ingest_zip] raised. *)
Theorem upload_endpoints_clean_up (env : Ingestion.Env) (aenv : Auditor.Env)
    (xenv : Extractor.Env) (temp_name : UploadFile → string)
    (retriever : Auditor.Retriever) (store : Ingestion.Ingestor)
    (fs : gmap string string) (upload : UploadFile) :
  (ingest_policies env temp_name store fs upload).1.2 = delete (temp_name upload) fs ∧
  (run_bulk_audit_stream aenv xenv temp_name retriever fs upload).1
    = delete (temp_name upload) fs ∧
  (fs !! temp_name upload = None → delete (temp_name upload) fs = fs) ∧
  (ingest_policies env temp_name store fs upload).1.1
    = (Ingestion.ingest_zip env store (temp_name upload)).1 ∧
  (∀ e, (Ingestion.ingest_zip env store (temp_name upload)).2 = Raise e →
     (ingest_policies env temp_name store fs upload).2 = Raise e) ∧
  (∀ count, (Ingestion.ingest_zip env store (temp_name upload)).2 = Ok count →
     (ingest_policies env temp_name store fs upload).2
     = Ok [("message", JStr "Ingestion successful"); ("chunks_indexed", JInt count)]) ∧
  (run_bulk_audit_stream aenv xenv temp_name retriever fs upload).2
    = Main.run_bulk_audit_stream aenv xenv retriever (temp_name upload).
Proof.
  pose proof (remove_saved temp_name fs upload) as Hrm.
  unfold ingest_policies, run_bulk_audit_stream.
  destruct (save_upload_file temp_name fs upload) as [path fs1] eqn:Hsave.
  assert (path = temp_name upload) as -> by (by injection Hsave).
  simpl in Hrm.
  destruct (Ingestion.ingest_zip env store (temp_name upload)) as [store' outcome].
  simpl. split; [done|]. split; [done|]. split; [apply delete_id|].
  split; [done|]. split; [by intros e ->|]. split; [by intros count ->|done].
Qed.

(** An archive that cannot be opened: the endpoint raises and the upload
    is gone. *)
Lemma upload_endpoints_clean_up_witness :
  (ingest_policies Scenario2.broken_ingest_env Scenario2.temp_name
     (Ingestion.mkIngestor [] 0)
     {["/etc/hosts" := "localhost"]} (mkUpload "policies.zip" "not a zip")).1.2
  = {["/etc/hosts" := "localhost"]} ∧
  (ingest_policies Scenario2.broken_ingest_env Scenario2.temp_name
     (Ingestion.mkIngestor [] 0)
     {["/etc/hosts" := "localhost"]} (mkUpload "policies.zip" "not a zip")).2
  = Raise (Exc "BadZipFile" "File is not a zip file").
Proof.
  destruct (upload_endpoints_clean_up Scenario2.broken_ingest_env Scenario.audit_env
              Scenario.unreadable_env Scenario2.temp_name Scenario.one_chunk_retriever
              (Ingestion.mkIngestor [] 0)
              {["/etc/hosts" := "localhost"]} (mkUpload "policies.zip" "not a zip"))
    as (Hfiles & _ & Hfresh & _ & Hraise & _).
  split.
  - rw Hfiles. apply Hfresh. by vm_compute.
  - apply Hraise. reflexivity.
Defined.

Lemma audit_one_length audit q : length (audit_one audit q) = 2.
Proof. done. Qed.

Lemma generator_loop_length audit questions :
  length (questions ≫= audit_one audit) = 2 * length questions.
Proof.
  induction questions as [|q qs IH]; [done|].
  rw bind_cons length_app IH /=. lia.
Qed.

Lemma audit_generator_counts_length audit questions :
  length (audit_generator audit questions) = 1 + 2 * length questions ∧
  length (records (audit_generator audit questions)) = 1 + length questions.
Proof.
  pose proof (MainFacts.records_loop audit questions) as Hr.
  unfold audit_generator, records in *. cbn [omap list_omap length].
  rw Hr. split; [by rw generator_loop_length | by rw length_fmap].
Qed.

(** X17: whatever the audit calls do, also if one should raise, the
    generator yields one unit for the count and two per question, and its
    records are the ["meta"] record followed by exactly one ["result"]
    record per question, in order, each with the text of its own question:
    a call that raises is reported by a record with status ["Error"] and
    no sources, and the stream goes on with the next question. *)
Theorem audit_generator_counts (audit : string → result Auditor.AuditResult)
    (questions : list string) :
  length (audit_generator audit questions) = 1 + 2 * length questions ∧
  length (records (audit_generator audit questions)) = 1 + length questions ∧
  record_get "total" (default [] (head (records (audit_generator audit questions))))
    = Some (JInt (length questions)) ∧
  (∀ i q, questions !! i = Some q →
     ∃ record,
       records (audit_generator audit questions) !! S i = Some record ∧
       record_get "type" record = Some (JStr "result") ∧
       match audit q with
       | Ok res => record = result_record res
       | Raise e =>
           record_get "question" record = Some (JStr q) ∧
           record_get "status" record = Some (JStr "Error") ∧
           record_get "answer" record
             = Some (JStr ("Internal Server Error: " +:+ exc_msg e)) ∧
           record_get "sources" record = Some (JStrList [])
       end).
Proof.
  pose proof (MainFacts.records_loop audit questions) as Hr.
  unfold audit_generator, records in *. cbn [omap list_omap length head default].
  rw Hr. split; [by rw generator_loop_length|].
  split; [by rw length_fmap|]. split; [done|].
  intros i q Hq. cbn [lookup list_lookup]. rw list_lookup_fmap Hq /=.
  eexists. split; [done|]. by destruct (audit q).
Qed.

(** Two questions, the audit of the first of which raises. *)
Lemma audit_generator_counts_witness :
  ∃ record,
    records
      (audit_generator
         (λ q, if decide (q = "Is MFA required?")
               then Raise (Exc "RuntimeError" "event loop closed")
               else Ok (Auditor.run_audit Scenario.audit_env q Scenario.one_chunk_retriever))
         ["Is MFA required?"; "Are backups tested?"]) !! 1 = Some record ∧
    record_get "status" record = Some (JStr "Error") ∧
    record_get "answer" record = Some (JStr "Internal Server Error: event loop closed").
Proof.
  destruct (audit_generator_counts
              (λ q, if decide (q = "Is MFA required?")
                    then Raise (Exc "RuntimeError" "event loop closed")
                    else Ok (Auditor.run_audit Scenario.audit_env q
                               Scenario.one_chunk_retriever))
              ["Is MFA required?"; "Are backups tested?"])
    as (_ & _ & _ & Hrec).
  destruct (Hrec 0 "Is MFA required?" eq_refl) as (record & Hat & _ & Hfields).
  simpl in Hfields. destruct Hfields as (_ & Hstatus & Hanswer & _).
  exists record. split; [exact Hat|]. split; [exact Hstatus | exact Hanswer].
Defined.

End ApiFacts.

(** ** Extraction and the start of the bulk stream *)

Module ExtractorFacts.
Import PyStr Extractor Main.

Lemma extract_nonempty_iff (xenv : Extractor.Env) (path : string) (q : string)
    (qs : list string) :
  extract_from_file xenv path = q :: qs
  ↔ ∃ pages parsed,
      Extractor.pdf_load xenv path = Ok pages ∧
      chain_invoke xenv (join NL (page_content <$> pages)) (format_instructions xenv)
        = Ok parsed ∧
      parsed !! "questions" = Some (q :: qs).
Proof.
  unfold extract_from_file, extract_try. split.
  - destruct (Extractor.pdf_load xenv path) as [pages|]; [simpl|done].
    destruct (chain_invoke xenv _ _) as [parsed|] eqn:Hc; [simpl|done].
    destruct (parsed !! "questions") as [l|] eqn:Hq; [simpl|done].
    intros ->. by exists pages, parsed.
  - intros (pages & parsed & -> & Hc & Hq). simpl. by rw Hc /= Hq.
Qed.

(** X18: the bulk endpoint starts a stream exactly when the upload is
    loaded, the extraction chain returns, and its payload has a non-empty
    list under ["questions"]; a payload without that key counts as no
    question.  The stream then has the media type [application/x-ndjson]
    and one unit more than twice the number of questions; in every other
    case the endpoint raises the 400 error. *)
Theorem bulk_stream_starts_iff (aenv : Auditor.Env) (xenv : Extractor.Env)
    (retriever : Auditor.Retriever) (path : string) :
  ((∃ body media_type,
      run_bulk_audit_stream aenv xenv retriever path = StreamingResponse body media_type)
   ↔ ∃ pages parsed q qs,
       Extractor.pdf_load xenv path = Ok pages ∧
       chain_invoke xenv (join NL (page_content <$> pages)) (format_instructions xenv)
         = Ok parsed ∧
       parsed !! "questions" = Some (q :: qs)) ∧
  (∀ body media_type,
     run_bulk_audit_stream aenv xenv retriever path = StreamingResponse body media_type →
     media_type = "application/x-ndjson" ∧
     length body = 1 + 2 * length (extract_from_file xenv path)) ∧
  ((¬ ∃ body media_type,
      run_bulk_audit_stream aenv xenv retriever path = StreamingResponse body media_type) →
   run_bulk_audit_stream aenv xenv retriever path
   = HTTPException 400 "Could not extract any questions.").
Proof.
  unfold run_bulk_audit_stream. split; [|split].
  - split.
    + intros (body & mt & H).
      destruct (extract_from_file xenv path) as [|q qs] eqn:E; [done|].
      apply extract_nonempty_iff in E as (pages & parsed & ?). by exists pages, parsed, q, qs.
    + intros (pages & parsed & q & qs & H).
      assert (extract_from_file xenv path = q :: qs) as ->
        by (apply extract_nonempty_iff; by exists pages, parsed).
      by do 2 eexists.
  - intros body mt H.
    destruct (extract_from_file xenv path) as [|q qs]; [done|].
    injection H as <- <-. split; [done|].
    exact (proj1 (ApiFacts.audit_generator_counts_length _ (q :: qs))).
  - intros H. destruct (extract_from_file xenv path) as [|q qs]; [done|].
    exfalso. apply H. by do 2 eexists.
Qed.

End ExtractorFacts.
